(** * pingo2: availability monitor — target polling loop and alert debouncer

    A shallow embedding of [runTarget], [alert], [alertRoutine] and
    [CommandRun], followed by the properties of the monitor/debouncer pair.

    Conventions.
    - A [time.Time] is a [Z]: nanoseconds since the zero [time.Time]
      (so the zero value of a [time.Time] field is [0]).
    - A [time.Duration] is a Go [int64] count of nanoseconds, a [Z] with the
      wrap-around of its arithmetic written out ([wrap64]); [time.Time.Sub]
      saturates ([sat64]), as the Go library does.
    - Go [int] is taken to be 64 bits wide.
    - The goroutines of one target are interleaved by an explicit step
      function over a state that holds the one live [status] variable of
      [runTarget]; [&status] is what travels over the [alertRequest]
      channel. *)

From Stdlib Require Import ZArith Lia Bool String List.
From stdpp Require Import base list.
Import ListNotations.

Local Open Scope string_scope.
Local Open Scope list_scope.
Local Open Scope Z_scope.

(** ** Machine integers and time *)

Definition MaxInt64 : Z := 9223372036854775807.
Definition MinInt64 : Z := -9223372036854775808.

(** Two's complement wrap-around of 64-bit signed arithmetic. *)
Definition wrap64 (z : Z) : Z := (z + 2 ^ 63) mod 2 ^ 64 - 2 ^ 63.

(** Saturation, as [time.Time.Sub] does when the difference overflows. *)
Definition sat64 (z : Z) : Z :=
  if z <? MinInt64 then MinInt64 else if MaxInt64 <? z then MaxInt64 else z.

Definition Second : Z := 1000000000.
Definition Minute : Z := 60 * Second.

(** The largest number of whole seconds a [time.Duration] can hold. *)
Definition MaxSeconds : Z := 9223372036.

(** [time.Duration(n) * time.Second] *)
Definition seconds (n : Z) : Z := wrap64 (n * Second).

(** [time.Since(t)] when the clock reads [now] *)
Definition time_Since (now t : Z) : Z := sat64 (now - t).

(** minimum interval between checks *)
Definition CheckInterval : Z := 30.

(** don't alert if host goes down and comes back within this time span *)
Definition StandoffInterval : Z := 60.

(** ** Data model *)

Module Target.
Record t := mk {
  Id : Z;
  Name : string;
  Addr : string;
  Host : string;
  Interval : Z;
  Keyword : string;
  Commandrun : string
}.

Definition with_Interval (i : Z) (x : t) : t :=
  mk (Id x) (Name x) (Addr x) (Host x) i (Keyword x) (Commandrun x).
End Target.

Module TargetStatus.
Record t := mk {
  Target : Target.t;
  Online : bool;
  ErrorMsg : string;
  Since : Z;
  LastCheck : Z;
  LastAlert : Z
}.

Definition with_Online (b : bool) (x : t) : t :=
  mk (Target x) b (ErrorMsg x) (Since x) (LastCheck x) (LastAlert x).
Definition with_ErrorMsg (m : string) (x : t) : t :=
  mk (Target x) (Online x) m (Since x) (LastCheck x) (LastAlert x).
Definition with_Since (z : Z) (x : t) : t :=
  mk (Target x) (Online x) (ErrorMsg x) z (LastCheck x) (LastAlert x).
Definition with_LastCheck (z : Z) (x : t) : t :=
  mk (Target x) (Online x) (ErrorMsg x) (Since x) z (LastAlert x).
Definition with_LastAlert (z : Z) (x : t) : t :=
  mk (Target x) (Online x) (ErrorMsg x) (Since x) (LastCheck x) z.
End TargetStatus.

(** Modelled from the spec: the [Config] declaration is not among the source
    files; the record holds the fields the code reads ([config.Timeout],
    [config.Standoff], [config.Alert.Interval], [config.Alert.ToEmail]),
    the spec's probe timeout, standoff, re-notify interval and notifier
    settings. *)
Module Alert.
Record t := mk {
  Interval : Z;
  ToEmail : string
}.
End Alert.

Module Config.
Record t := mk {
  Timeout : Z;
  Standoff : Z;
  Alert : Alert.t
}.

Definition with_Standoff (s : Z) (c : t) : t := mk (Timeout c) s (Alert c).
End Config.

(** ** The notifier: [CommandRun] (comandrun.go) *)

(** What the operating system answers to [cmd.Start()] and [cmd.Wait()] for
    the process built by [exec.Command]: [None] is a nil error. *)
Record Process := mkProcess {
  cmd_Start : option string;
  cmd_Wait : option string
}.

Definition CommandRun (exec_Command : list string -> Process)
    (command : string) (config : Config.t) : option string :=
  let cmd := exec_Command ["/bin/bash"; "-c"; command] in
  match cmd_Start cmd with
  | Some err => Some ("error run command, err " ++ err)%string
  | None =>
      let err := cmd_Wait cmd in
      None
  end.

(** ** Startup of [runTarget] *)

(** The part of a parsed [url.URL] the monitor reads. *)
Record URL := mkURL {
  Scheme : string;
  URLHost : string
}.

Definition clampInterval (t : Target.t) : Target.t :=
  if Target.Interval t <? CheckInterval
  then Target.with_Interval CheckInterval t
  else t.

Definition adjustStandoff (t : Target.t) (config : Config.t) : Config.t :=
  if Config.Standoff config =? 0
  then Config.with_Standoff StandoffInterval config
  else if Config.Standoff config <=? Target.Interval t
       then Config.with_Standoff (wrap64 (Target.Interval t + 1)) config
       else config.

(** Lines 57-72 of [runTarget]; [None] is the early return on an address
    that [url.Parse] rejects. *)
Definition runTarget_startup (url_Parse : string -> option URL)
    (t : Target.t) (config : Config.t) : option (Target.t * URL * Config.t) :=
  let t := clampInterval t in
  match url_Parse (Target.Addr t) with
  | None => None
  | Some addrURL => Some (t, addrURL, adjustStandoff t config)
  end.

(** ** One polling cycle of [runTarget] *)

(** What the network answers in one cycle: the results of [client.Do],
    [ioutil.ReadAll], [Ping] and [net.DialTimeout]; an error is [Some]. *)
Record Probe := mkProbe {
  client_Do : option string;
  ioutil_ReadAll : string + string;
  Ping : bool * option string;
  net_DialTimeout : option string
}.

(** [strings.Index(body, keyword) == -1] *)
Fixpoint has_prefix (p s : string) : bool :=
  match p, s with
  | EmptyString, _ => true
  | String a p', String b s' => if Ascii.eqb a b then has_prefix p' s' else false
  | String _ _, EmptyString => false
  end.

Fixpoint keyword_missing (keyword body : string) : bool :=
  if has_prefix keyword body then false
  else match body with
       | EmptyString => true
       | String _ body' => keyword_missing keyword body'
       end.

Definition is_empty (s : string) : bool :=
  match s with EmptyString => true | _ => false end.

(** The [switch addrURL.Scheme] of lines 88-151: the cycle's [failed] flag
    and the [ErrorMsg] it leaves in [status] (reset to the empty string at
    line 85). *)
Definition poll (addrURL : URL) (t : Target.t) (w : Probe) : bool * string :=
  if String.eqb (Scheme addrURL) "http" || String.eqb (Scheme addrURL) "https"
  then match client_Do w with
       | Some err => (true, err)
       | None =>
           match ioutil_ReadAll w with
           | inr err => (true, err)
           | inl body =>
               if negb (is_empty (Target.Keyword t))
                  && keyword_missing (Target.Keyword t) body
               then (true, ("keyword '" ++ Target.Keyword t ++ "' not found")%string)
               else (false, "")
           end
       end
  else if String.eqb (Scheme addrURL) "ping"
  then let '(success, err) := Ping w in
       (negb success, match err with Some e => e | None => "" end)
  else match net_DialTimeout w with
       | Some err => (true, err)
       | None => (false, "")
       end.

(** Lines 84-183: the body of the polling loop up to the two channel
    sends. The result is the new content of [status] and whether
    [alertRequest <- &status] is executed. The clock is read once. *)
Definition runTarget_cycle (config : Config.t) (addrURL : URL) (t : Target.t)
    (w : Probe) (now : Z) (status : TargetStatus.t) : TargetStatus.t * bool :=
  let '(failed, msg) := poll addrURL t w in
  let status := TargetStatus.with_ErrorMsg msg status in
  let status := TargetStatus.with_LastCheck now status in
  if failed then
    if TargetStatus.Online status then
      (* was online, now offline *)
      let status := TargetStatus.with_Online false status in
      let status := TargetStatus.with_Since now status in
      (status, true)
    else
      (* was offline, still offline *)
      if seconds (Alert.Interval (Config.Alert config))
           <? time_Since now (TargetStatus.LastAlert status)
      then (status, true)
      else (status, false)
  else
    if negb (TargetStatus.Online status) then
      (* was offline, now online *)
      let status := TargetStatus.with_Online true status in
      (status, true)
    else (status, false).

(** ** Dispatch and the debouncer *)

(** What [alert] and [alertRoutine] do to the outside world. *)
Inductive LogLine :=
| LogErr (err : string)        (* log.Printf("%s", err) *)
| LogAlertSent                 (* "alert sent to ..." *)
| LogAlertNotSent              (* "alert NOT sent as no 'To:' email specified" *)
| LogSkipped.                  (* "down/up alerts skipped due to standoff" *)

Inductive Effect :=
| Ran (command : string)               (* Commandrun(command, config) *)
| Mailed (snapshot : TargetStatus.t)   (* EmailAlert( *status, config) *)
| Logged (line : LogLine).

(** The notifier calls among the effects: what was handed to a transport. *)
Definition is_delivery (e : Effect) : bool :=
  match e with
  | Ran _ | Mailed _ => true
  | Logged _ => false
  end.

Definition deliveries (l : list Effect) : list Effect :=
  List.filter is_delivery l.

(** [&status], the address of the one [status] variable of [runTarget]:
    the only pointer that is ever sent on [alertRequest]. *)
Inductive Ptr : Set := addr_status.

(** A [time.Timer]: [Armed] until the runtime sends on its channel [C] at
    the deadline, [Ready] while that value sits in [C], [Drained] once it
    has been received. *)
Inductive TimerState := Armed | Ready | Drained.

Record Timer := mkTimer {
  deadline : Z;
  tstate : TimerState
}.

(** Where the monitor goroutine stands: at the head of its loop, blocked on
    [alertRequest <- &status], or at [res <- status]. *)
Inductive MonState := AtLoop | AtSendAlert | AtSendRes.

(** Where the debouncer goroutine stands: in the outer [select] (WAITING)
    or in the inner one with its locals [req] and [timer1] (SUPPRESSING). *)
Inductive DebState :=
| Waiting
| Suppressing (req : Ptr) (timer1 : nat).

Record Sys := mkSys {
  now : Z;                              (* the clock *)
  status : TargetStatus.t;              (* the variable [status] *)
  alertRequest : list Ptr;              (* the channel, capacity 1 *)
  mon : MonState;
  deb : DebState;
  timers : list Timer;                  (* every timer created so far *)
  res : list TargetStatus.t;            (* values sent on [res] *)
  alerts : list TargetStatus.t;         (* [*status] at each call of [alert] *)
  effects : list Effect
}.

Definition set_now v s :=
  mkSys v (status s) (alertRequest s) (mon s) (deb s) (timers s) (res s) (alerts s) (effects s).
Definition set_status v s :=
  mkSys (now s) v (alertRequest s) (mon s) (deb s) (timers s) (res s) (alerts s) (effects s).
Definition set_alertRequest v s :=
  mkSys (now s) (status s) v (mon s) (deb s) (timers s) (res s) (alerts s) (effects s).
Definition set_mon v s :=
  mkSys (now s) (status s) (alertRequest s) v (deb s) (timers s) (res s) (alerts s) (effects s).
Definition set_deb v s :=
  mkSys (now s) (status s) (alertRequest s) (mon s) v (timers s) (res s) (alerts s) (effects s).
Definition set_timers v s :=
  mkSys (now s) (status s) (alertRequest s) (mon s) (deb s) v (res s) (alerts s) (effects s).
Definition set_res v s :=
  mkSys (now s) (status s) (alertRequest s) (mon s) (deb s) (timers s) v (alerts s) (effects s).
Definition set_alerts v s :=
  mkSys (now s) (status s) (alertRequest s) (mon s) (deb s) (timers s) (res s) v (effects s).
Definition set_effects v s :=
  mkSys (now s) (status s) (alertRequest s) (mon s) (deb s) (timers s) (res s) (alerts s) v.

(** [*p] and [*p = v] *)
Definition deref (s : Sys) (p : Ptr) : TargetStatus.t :=
  match p with addr_status => status s end.

Definition store (p : Ptr) (v : TargetStatus.t) (s : Sys) : Sys :=
  match p with addr_status => set_status v s end.

Section Core.

(** The package-level [debug] switch, and the two notifier functions
    [alert] calls, none of them declared in the source files here
    ([alert] calls [Commandrun], not the [CommandRun] of comandrun.go).
    Their first argument is the clock at the call; [None] is a nil
    error. *)
Variable debug : bool.
Variable Commandrun : Z -> string -> Config.t -> option string.
Variable EmailAlert : Z -> TargetStatus.t -> Config.t -> option string.

Definition log_err (r : option string) : list Effect :=
  match r with
  | Some err => [Logged (LogErr err)]
  | None => []
  end.

(** [alert], on the value of [*status]: the value it leaves there and what
    it did. *)
Definition alert (now : Z) (status : TargetStatus.t) (config : Config.t)
  : TargetStatus.t * list Effect :=
  let byCommand :=
    if negb (is_empty (Target.Commandrun (TargetStatus.Target status))) then
      let command := Target.Commandrun (TargetStatus.Target status) in
      Ran command :: log_err (Commandrun now command config)
        ++ [Logged LogAlertSent]
    else if debug then [Logged LogAlertNotSent] else [] in
  let byEmail :=
    if negb (is_empty (Alert.ToEmail (Config.Alert config))) then
      Mailed status :: log_err (EmailAlert now status config)
        ++ [Logged LogAlertSent]
    else if debug then [Logged LogAlertNotSent] else [] in
  (TargetStatus.with_LastAlert now status, byCommand ++ byEmail).

(** The target, its parsed address and the configuration, as
    [runTarget_startup] leaves them. *)
Variable config : Config.t.
Variable addrURL : URL.
Variable t : Target.t.

(** [alert(p, config)] in the debouncer goroutine. *)
Definition call_alert (p : Ptr) (s : Sys) : Sys :=
  let '(status', eff) := alert (now s) (deref s p) config in
  set_effects (effects s ++ eff)
    (set_alerts (alerts s ++ [deref s p]) (store p status' s)).

(** [time.NewTimer(d)]: the new timer is the last of [timers]. *)
Definition time_NewTimer (d : Z) (s : Sys) : Sys :=
  set_timers (timers s ++ [mkTimer (now s + d) Armed]) s.

(** The debouncer receives [req] from [alertRequest]: lines 224-231 in
    WAITING, lines 234-250 in SUPPRESSING. *)
Definition alertRoutine_recv (req : Ptr) (s : Sys) : Sys :=
  match deb s with
  | Waiting =>
      if TargetStatus.Online (deref s req)
         || (Minute <? time_Since (now s) (TargetStatus.Since (deref s req)))
      then call_alert req s
      else
        let timer1 := length (timers s) in
        set_deb (Suppressing req timer1)
          (time_NewTimer (seconds (Config.Standoff config)) s)
  | Suppressing _ _ =>
      let req2 := req in
      if TargetStatus.Online (deref s req2) then
        let s :=
          if seconds (Config.Standoff config)
               <? time_Since (now s) (TargetStatus.Since (deref s req2))
          then call_alert req2 s
          else if debug
               then set_effects (effects s ++ [Logged LogSkipped]) s
               else s in
        let s := store req2 (TargetStatus.with_Since (now s) (deref s req2)) s in
        set_deb Waiting s
      else s
  end.

(** The debouncer receives from [timer1.C]: lines 251-256. *)
Definition alertRoutine_timer (s : Sys) : option Sys :=
  match deb s with
  | Waiting => None
  | Suppressing req timer1 =>
      match timers s !! timer1 with
      | Some (mkTimer dl Ready) =>
          let s := set_timers (<[timer1 := mkTimer dl Drained]> (timers s)) s in
          Some (set_deb Waiting (call_alert req s))
      | _ => None
      end
  end.

(** ** The interleaving of the two goroutines, the clock and the timers *)

(** A step of the debouncer that calls [alert] runs it to its end: the
    transports are taken to return. A debouncer held inside [alert] by a
    transport is not a state of this model, so the properties below are
    about what the goroutines do, not about whether they get to do it. *)

Inductive Label :=
| Elapse (d : Z)      (* the clock advances by [d] nanoseconds *)
| Cycle (w : Probe)   (* monitor: one pass of lines 84-183 *)
| SendAlert           (* monitor: [alertRequest <- &status] goes through *)
| SendRes             (* monitor: [res <- status], then the ticker *)
| Recv                (* debouncer: a receive from [alertRequest] *)
| TimerC              (* debouncer: the receive from [timer1.C] *)
| Expire (k : nat).   (* runtime: timer [k] is due and sends on its [C] *)

Definition step (l : Label) (s : Sys) : option Sys :=
  match l with
  | Elapse d =>
      if 0 <=? d then Some (set_now (now s + d) s) else None
  | Cycle w =>
      match mon s with
      | AtLoop =>
          let '(status', emit) :=
            runTarget_cycle config addrURL t w (now s) (status s) in
          Some (set_mon (if emit then AtSendAlert else AtSendRes)
                  (set_status status' s))
      | _ => None
      end
  | SendAlert =>
      match mon s, alertRequest s with
      | AtSendAlert, [] =>
          Some (set_mon AtSendRes (set_alertRequest [addr_status] s))
      | _, _ => None
      end
  | SendRes =>
      match mon s with
      | AtSendRes => Some (set_mon AtLoop (set_res (res s ++ [status s]) s))
      | _ => None
      end
  | Recv =>
      match alertRequest s with
      | req :: rest => Some (alertRoutine_recv req (set_alertRequest rest s))
      | [] => None
      end
  | TimerC => alertRoutine_timer s
  | Expire k =>
      match timers s !! k with
      | Some (mkTimer dl Armed) =>
          if dl <=? now s
          then Some (set_timers (<[k := mkTimer dl Ready]> (timers s)) s)
          else None
      | _ => None
      end
  end.

Fixpoint run (tr : list Label) (s : Sys) : option Sys :=
  match tr with
  | [] => Some s
  | l :: tr' =>
      match step l s with
      | Some s' => run tr' s'
      | None => None
      end
  end.

(** Line 81 and the state of both goroutines when the loop is entered at
    clock [now0]. *)
Definition init (now0 : Z) : Sys :=
  mkSys now0 (TargetStatus.mk t true "" now0 0 0) [] AtLoop Waiting [] [] [] [].

Definition reachable (s : Sys) : Prop :=
  exists now0 tr, run tr (init now0) = Some s.

End Core.

(** ** Invariants of the interleaving *)

(** The timer the debouncer is selecting on, if any. *)
Definition current_timer (s : Sys) : option nat :=
  match deb s with
  | Waiting => None
  | Suppressing _ timer1 => Some timer1
  end.

(** The timer of the running suppression cycle is the newest one. *)
Definition timer_is_newest (s : Sys) : Prop :=
  forall k, current_timer s = Some k -> S k = length (timers s).

(** [Since] was read from the clock. *)
Definition Since_in_past (s : Sys) : Prop :=
  TargetStatus.Since (status s) <= now s.

(** A timer that has sent on its channel was due. *)
Definition fired_timers_due (s : Sys) : Prop :=
  forall k tm, timers s !! k = Some tm -> tstate tm <> Armed -> deadline tm <= now s.

Definition Inv (s : Sys) : Prop :=
  timer_is_newest s /\ Since_in_past s /\ fired_timers_due s.

(** Timer [k] exists and no suppression cycle is waiting for it: its cycle
    is over. *)
Definition abandoned (s : Sys) (k : nat) : Prop :=
  (k < length (timers s))%nat /\ current_timer s <> Some k.

(** The four things a step can do to the list of timers. *)
Inductive timers_change (s s' : Sys) : Prop :=
| tc_same :
    timers s' = timers s ->
    current_timer s' = current_timer s \/ current_timer s' = None ->
    timers_change s s'
| tc_new dl :
    current_timer s = None ->
    timers s' = timers s ++ [mkTimer dl Armed] ->
    current_timer s' = Some (length (timers s)) ->
    timers_change s s'
| tc_expire k dl :
    timers s !! k = Some (mkTimer dl Armed) ->
    dl <= now s ->
    timers s' = <[k := mkTimer dl Ready]> (timers s) ->
    current_timer s' = current_timer s ->
    timers_change s s'
| tc_drain k dl :
    current_timer s = Some k ->
    timers s !! k = Some (mkTimer dl Ready) ->
    timers s' = <[k := mkTimer dl Drained]> (timers s) ->
    current_timer s' = None ->
    timers_change s s'.

(** The writer of each field of [status], step by step. *)
Definition status_written_by (l : Label) (st st' : TargetStatus.t) : Prop :=
  match l with
  | Cycle _ =>
      (* the monitor: everything but [Target] and [LastAlert] *)
      TargetStatus.Target st' = TargetStatus.Target st
      /\ TargetStatus.LastAlert st' = TargetStatus.LastAlert st
  | Recv | TimerC =>
      (* the debouncer: [LastAlert] and [Since] only *)
      TargetStatus.Target st' = TargetStatus.Target st
      /\ TargetStatus.Online st' = TargetStatus.Online st
      /\ TargetStatus.ErrorMsg st' = TargetStatus.ErrorMsg st
      /\ TargetStatus.LastCheck st' = TargetStatus.LastCheck st
  | Elapse _ | SendAlert | SendRes | Expire _ => st' = st
  end.

(** The timer a running cycle waits for has not been received from. *)
Definition running_timer_unread (s : Sys) : Prop :=
  forall k tm, current_timer s = Some k -> timers s !! k = Some tm ->
    tstate tm <> Drained.

(** ** The schedule of [runTarget]: lines 75-77 *)

(** [rand.Intn(n)] panics ([None]) when [n <= 0]; otherwise it returns what
    the generator draws for [n]. *)
Definition rand_Intn (draw : Z -> Z) (n : Z) : option Z :=
  if n <=? 0 then None else Some (draw n).

(** [time.Tick(d)] returns a nil channel ([None]: a receive from it blocks
    for ever) when [d <= 0], otherwise a channel that ticks every [d]. *)
Definition time_Tick (d : Z) : option Z :=
  if d <=? 0 then None else Some d.

(** The duration slept before the first check and the ticker, for the
    target [t] that startup leaves; [None] when [rand.Intn] panics. *)
Definition runTarget_schedule (draw : Z -> Z) (t : Target.t)
  : option (Z * option Z) :=
  match rand_Intn draw (Target.Interval t) with
  | None => None
  | Some j => Some (seconds j, time_Tick (seconds (Target.Interval t)))
  end.

(** ** Counting in runs and logs *)

Definition is_Cycle (l : Label) : bool :=
  match l with Cycle _ => true | _ => false end.
Definition is_SendAlert (l : Label) : bool :=
  match l with SendAlert => true | _ => false end.
Definition is_Recv (l : Label) : bool :=
  match l with Recv => true | _ => false end.

Definition count (f : Label -> bool) (tr : list Label) : nat :=
  length (List.filter f tr).

(** 1 while the monitor is inside a pass of its loop, 0 at its head. *)
Definition in_cycle (s : Sys) : nat :=
  match mon s with AtLoop => 0%nat | AtSendAlert | AtSendRes => 1%nat end.

(** The errors written to the log. *)
Definition logged_errors (l : list Effect) : list string :=
  flat_map (fun e => match e with Logged (LogErr m) => [m] | _ => [] end) l.

Definition error_list (r : option string) : list string :=
  match r with Some m => [m] | None => [] end.

(** [keyword] occurs in [body]. *)
Definition contains (body keyword : string) : Prop :=
  exists pre post, body = (pre ++ keyword ++ post)%string.

(** ** A concrete target, for the scenarios *)

Module Scenario.

Definition tgt : Target.t :=
  Target.mk 1 "web" "tcp://example.org:80" "" 30 "" "notify.sh".

Definition url : URL := mkURL "tcp" "example.org:80".

(** Standoff [S] seconds, re-notify interval [A] seconds. *)
Definition cfg (S A : Z) : Config.t :=
  Config.mk 5 S (Alert.mk A "ops@example.org").

Definition down : Probe :=
  mkProbe None (inl "") (false, None) (Some "connection refused").

Definition up : Probe := mkProbe None (inl "") (true, None) None.

Definition cmd_ok : Z -> string -> Config.t -> option string :=
  fun _ _ _ => None.

Definition mail_ok : Z -> TargetStatus.t -> Config.t -> option string :=
  fun _ _ _ => None.

(** The clock when the polling loop is entered. *)
Definition T0 : Z := 64000000000000000000.

Definition sec (n : Z) : Label := Elapse (n * Second).

Definition step_ (S A : Z) : Label -> Sys -> option Sys :=
  step false cmd_ok mail_ok (cfg S A) url tgt.

Definition run_ (S A : Z) : list Label -> Sys -> option Sys :=
  run false cmd_ok mail_ok (cfg S A) url tgt.

(** The state a run ends in. *)
Definition after (S A : Z) (tr : list Label) : Sys :=
  match run_ S A tr (init tgt T0) with
  | Some s => s
  | None => init tgt T0
  end.

(** The target goes down at [T0]; the request is on the channel. *)
Definition outage : list Label := [Cycle down; SendAlert; SendRes].

End Scenario.

(** * Properties *)

Ltac break_if :=
  repeat match goal with
    | |- context [if ?b then _ else _] => destruct b eqn:?
    end.


(** ** Arithmetic of durations *)

Lemma wrap64_small (z : Z) : MinInt64 <= z <= MaxInt64 -> wrap64 z = z.
Proof.
  unfold wrap64, MinInt64, MaxInt64. intros Hz.
  change (2 ^ 63) with 9223372036854775808.
  change (2 ^ 64) with 18446744073709551616.
  rewrite Z.mod_small; lia.
Qed.

Lemma wrap64_range (z : Z) : MinInt64 <= wrap64 z <= MaxInt64.
Proof.
  unfold wrap64, MinInt64, MaxInt64.
  change (2 ^ 63) with 9223372036854775808.
  change (2 ^ 64) with 18446744073709551616.
  pose proof (Z.mod_pos_bound (z + 9223372036854775808) 18446744073709551616).
  lia.
Qed.

Lemma seconds_exact (n : Z) :
  - MaxSeconds <= n <= MaxSeconds -> seconds n = n * Second.
Proof.
  unfold seconds, MaxSeconds, Second. intros Hn.
  apply wrap64_small. unfold MinInt64, MaxInt64. lia.
Qed.

(** A saturated difference compares with an [int64] below the maximum as the
    exact difference does. *)
Lemma lt_time_Since (d now t : Z) :
  MinInt64 <= d < MaxInt64 -> (d < time_Since now t <-> d < now - t).
Proof.
  unfold time_Since, sat64, MinInt64, MaxInt64. intros Hd.
  destruct (Z.ltb_spec (now - t) (-9223372036854775808)); [lia|].
  destruct (Z.ltb_spec 9223372036854775807 (now - t)); lia.
Qed.

Lemma seconds_lt_Since (n now t : Z) :
  - MaxSeconds <= n <= MaxSeconds ->
  (seconds n <? time_Since now t) = (n * Second <? now - t).
Proof.
  intros Hn. rewrite (seconds_exact n Hn).
  assert (Hd : MinInt64 <= n * Second < MaxInt64)
    by (unfold MaxSeconds, Second, MinInt64, MaxInt64 in *; lia).
  pose proof (lt_time_Since (n * Second) now t Hd) as Hiff.
  destruct (Z.ltb_spec (n * Second) (time_Since now t));
    destruct (Z.ltb_spec (n * Second) (now - t)); try reflexivity; lia.
Qed.

Lemma Minute_lt_Since (now t : Z) :
  (Minute <? time_Since now t) = (60 * Second <? now - t).
Proof.
  assert (Hd : MinInt64 <= Minute < MaxInt64)
    by (unfold Minute, Second, MinInt64, MaxInt64; lia).
  pose proof (lt_time_Since Minute now t Hd) as Hiff.
  change (60 * Second) with Minute.
  destruct (Z.ltb_spec Minute (time_Since now t));
    destruct (Z.ltb_spec Minute (now - t)); try reflexivity; lia.
Qed.

(** ** The notifier *)

Lemma CommandRun_nil_iff exec_Command command config :
  CommandRun exec_Command command config = None
  <-> cmd_Start (exec_Command ["/bin/bash"; "-c"; command]) = None.
Proof.
  unfold CommandRun.
  destruct (cmd_Start (exec_Command ["/bin/bash"; "-c"; command]));
    split; intros H; congruence.
Qed.

(** C7: [CommandRun] reports a failure to start the process, but when the
    process starts and then fails on exit ([cmd.Wait] returns an error, here
    for the command [exit 1]) it returns nil: the error of [cmd.Wait] is
    assigned and dropped. *)
Theorem C7_CommandRun_drops_exit_error :
  let exec_Command := fun _ : list string =>
    mkProcess None (Some "exit status 1") in
  let config := Config.mk 5 60 (Alert.mk 300 "") in
  cmd_Wait (exec_Command ["/bin/bash"; "-c"; "exit 1"]) = Some "exit status 1"
  /\ CommandRun exec_Command "exit 1" config = None.
Proof. split; reflexivity. Qed.

(** ** Startup *)

Lemma clampInterval_min (t : Target.t) :
  CheckInterval <= Target.Interval (clampInterval t).
Proof.
  unfold clampInterval.
  destruct (Z.ltb_spec (Target.Interval t) CheckInterval); simpl; lia.
Qed.

Lemma runTarget_startup_Interval url_Parse t config t' u config' :
  runTarget_startup url_Parse t config = Some (t', u, config') ->
  30 <= Target.Interval t'.
Proof.
  unfold runTarget_startup.
  destruct (url_Parse (Target.Addr (clampInterval t))); [|discriminate].
  intros [= <- _ _]. apply clampInterval_min.
Qed.

(** A configured (non-zero) standoff ends above the interval, short of the
    overflow of [t.Interval + 1]. *)
Lemma adjustStandoff_configured (t : Target.t) (config : Config.t) :
  Config.Standoff config <> 0 ->
  Target.Interval t < MaxInt64 ->
  Target.Interval t < Config.Standoff (adjustStandoff t config).
Proof.
  unfold adjustStandoff. intros Hnz Hmax.
  destruct (Z.eqb_spec (Config.Standoff config) 0); [contradiction|].
  destruct (Z.leb_spec (Config.Standoff config) (Target.Interval t));
    cbn [Config.Standoff Config.with_Standoff].
  - destruct (Z.le_gt_cases MinInt64 (Target.Interval t + 1)).
    + rewrite wrap64_small; lia.
    + pose proof (wrap64_range (Target.Interval t + 1)). lia.
  - lia.
Qed.

(** C2: with [Standoff] left at zero and an interval of 100 seconds, startup
    keeps the interval (it is at least 30) and sets the standoff to the
    default 60, which is not greater than the interval. *)
Theorem C2_default_standoff_below_interval :
  let t := Target.mk 1 "web" "tcp://example.org:80" "" 100 "" "" in
  let config := Config.mk 5 0 (Alert.mk 300 "") in
  let url_Parse := fun _ : string => Some (mkURL "tcp" "example.org:80") in
  exists t' u config',
    runTarget_startup url_Parse t config = Some (t', u, config')
    /\ Target.Interval t' = 100
    /\ Config.Standoff config' = 60
    /\ ~ (Target.Interval t' < Config.Standoff config').
Proof.
  cbv zeta. eexists _, _, _. split; [reflexivity|].
  cbn. split; [reflexivity|]. split; [reflexivity|]. intros H. discriminate H.
Qed.

(** ** Behaviour of the monitor and the debouncer *)

Section Behaviour.

Variable debug : bool.
Variable Commandrun : Z -> string -> Config.t -> option string.
Variable EmailAlert : Z -> TargetStatus.t -> Config.t -> option string.
Variable config : Config.t.
Variable addrURL : URL.
Variable t : Target.t.

Local Abbreviation alert' := (alert debug Commandrun EmailAlert).
Local Abbreviation call_alert' := (call_alert debug Commandrun EmailAlert config).
Local Abbreviation recv' := (alertRoutine_recv debug Commandrun EmailAlert config).
Local Abbreviation timer' := (alertRoutine_timer debug Commandrun EmailAlert config).
Local Abbreviation step' := (step debug Commandrun EmailAlert config addrURL t).
Local Abbreviation run' := (run debug Commandrun EmailAlert config addrURL t).
Local Abbreviation reachable' := (reachable debug Commandrun EmailAlert config addrURL t).

(** *** Dispatch *)

Lemma deliveries_app (l1 l2 : list Effect) :
  deliveries (l1 ++ l2) = deliveries l1 ++ deliveries l2.
Proof. unfold deliveries. apply List.filter_app. Qed.

Lemma deliveries_log_err (r : option string) (l : list Effect) :
  deliveries (log_err r ++ l) = deliveries l.
Proof. destruct r; reflexivity. Qed.

Lemma call_alert_fields (p : Ptr) (s : Sys) :
  status (call_alert' p s) = TargetStatus.with_LastAlert (now s) (deref s p)
  /\ alerts (call_alert' p s) = alerts s ++ [deref s p]
  /\ effects (call_alert' p s) = effects s ++ snd (alert' (now s) (deref s p) config)
  /\ deb (call_alert' p s) = deb s
  /\ timers (call_alert' p s) = timers s
  /\ now (call_alert' p s) = now s
  /\ alertRequest (call_alert' p s) = alertRequest s
  /\ mon (call_alert' p s) = mon s
  /\ res (call_alert' p s) = res s.
Proof. destruct p. unfold call_alert, alert. cbn. repeat split; reflexivity. Qed.

(** C10: whatever the notifier functions answer, [alert] ends by setting
    [LastAlert] to the clock and changes nothing else of the status; it
    calls the command transport once exactly when the target has a command
    and the mail transport once exactly when a destination is configured,
    so a failure is not retried and with neither configured nothing is
    delivered while [LastAlert] is set all the same. In the debouncer the
    call leaves the control state as it is and is recorded as a
    dispatch. *)
Theorem C10_alert_always_sets_LastAlert
    (now0 : Z) (st : TargetStatus.t) (s : Sys) (p : Ptr) :
  let r := alert' now0 st config in
  let command := Target.Commandrun (TargetStatus.Target st) in
  let s' := call_alert' p s in
  fst r = TargetStatus.with_LastAlert now0 st
  /\ TargetStatus.LastAlert (fst r) = now0
  /\ deliveries (snd r) =
       (if is_empty command then [] else [Ran command])
       ++ (if is_empty (Alert.ToEmail (Config.Alert config))
           then [] else [Mailed st])
  /\ status s' = TargetStatus.with_LastAlert (now s) (deref s p)
  /\ alerts s' = alerts s ++ [deref s p]
  /\ deb s' = deb s
  /\ timers s' = timers s.
Proof.
  cbv zeta. split; [reflexivity|]. split; [reflexivity|]. split.
  - unfold alert. cbn [snd]. rewrite deliveries_app.
    f_equal.
    + destruct (is_empty (Target.Commandrun (TargetStatus.Target st))); cbn [negb].
      * destruct debug; reflexivity.
      * cbn [deliveries List.filter is_delivery].
        f_equal. apply (deliveries_log_err _ [Logged LogAlertSent]).
    + destruct (is_empty (Alert.ToEmail (Config.Alert config))); cbn [negb].
      * destruct debug; reflexivity.
      * cbn [deliveries List.filter is_delivery].
        f_equal. apply (deliveries_log_err _ [Logged LogAlertSent]).
  - pose proof (call_alert_fields p s) as H. tauto.
Qed.

(** *** The polling cycle *)

Lemma runTarget_cycle_still_down w now0 st msg :
  poll addrURL t w = (true, msg) ->
  TargetStatus.Online st = false ->
  runTarget_cycle config addrURL t w now0 st =
    (TargetStatus.with_LastCheck now0 (TargetStatus.with_ErrorMsg msg st),
     seconds (Alert.Interval (Config.Alert config))
       <? time_Since now0 (TargetStatus.LastAlert st)).
Proof.
  intros Hp Hoff. unfold runTarget_cycle. rewrite Hp. cbn.
  rewrite Hoff.
  destruct (seconds (Alert.Interval (Config.Alert config))
              <? time_Since now0 (TargetStatus.LastAlert st)); reflexivity.
Qed.

(** C8: in a cycle that finds an offline target still failed, the monitor
    goes on to send an alert request exactly when the time since
    [LastAlert] exceeds [Alert.Interval] seconds; otherwise it goes
    straight to the status snapshot. Either way [Online], [Since] and
    [LastAlert] keep their values and the cycle itself puts nothing on the
    channel. *)
Theorem C8_still_down_renotify (w : Probe) (s : Sys) :
  mon s = AtLoop ->
  fst (poll addrURL t w) = true ->
  TargetStatus.Online (status s) = false ->
  - MaxSeconds <= Alert.Interval (Config.Alert config) <= MaxSeconds ->
  exists s',
    step' (Cycle w) s = Some s'
    /\ (mon s' = AtSendAlert <->
        Alert.Interval (Config.Alert config) * Second
          < now s - TargetStatus.LastAlert (status s))
    /\ (mon s' = AtSendRes <->
        now s - TargetStatus.LastAlert (status s)
          <= Alert.Interval (Config.Alert config) * Second)
    /\ snd (runTarget_cycle config addrURL t w (now s) (status s))
         = (Alert.Interval (Config.Alert config) * Second
              <? now s - TargetStatus.LastAlert (status s))
    /\ TargetStatus.Online (status s') = false
    /\ TargetStatus.Since (status s') = TargetStatus.Since (status s)
    /\ TargetStatus.LastAlert (status s') = TargetStatus.LastAlert (status s)
    /\ alertRequest s' = alertRequest s.
Proof.
  intros Hmon Hfail Hoff Hrange.
  destruct (poll addrURL t w) as [failed msg] eqn:Hp. cbn in Hfail. subst failed.
  pose proof (runTarget_cycle_still_down w (now s) (status s) msg Hp Hoff) as Hc.
  rewrite (seconds_lt_Since _ _ _ Hrange) in Hc.
  unfold step. rewrite Hmon, Hc.
  eexists. split; [reflexivity|].
  cbn.
  destruct (Z.ltb_spec (Alert.Interval (Config.Alert config) * Second)
              (now s - TargetStatus.LastAlert (status s))) as [Hlt|Hge].
  - repeat split; try reflexivity; try assumption; intros; try lia; discriminate.
  - repeat split; try reflexivity; try assumption; intros; try lia; discriminate.
Qed.

(** *** The debouncer's receive, case by case *)

Lemma recv_waiting_dispatch (req : Ptr) (s : Sys) :
  deb s = Waiting ->
  (TargetStatus.Online (deref s req)
    || (60 * Second <? now s - TargetStatus.Since (deref s req))) = true ->
  recv' req s = call_alert' req s.
Proof.
  intros Hd Hc. unfold alertRoutine_recv. rewrite Hd, Minute_lt_Since, Hc.
  reflexivity.
Qed.

Lemma recv_waiting_suppress (req : Ptr) (s : Sys) :
  deb s = Waiting ->
  (TargetStatus.Online (deref s req)
    || (60 * Second <? now s - TargetStatus.Since (deref s req))) = false ->
  recv' req s =
    set_deb (Suppressing req (length (timers s)))
      (time_NewTimer (seconds (Config.Standoff config)) s).
Proof.
  intros Hd Hc. unfold alertRoutine_recv. rewrite Hd, Minute_lt_Since, Hc.
  reflexivity.
Qed.

Lemma recv_suppressing_offline (req pending : Ptr) (k : nat) (s : Sys) :
  deb s = Suppressing pending k ->
  TargetStatus.Online (deref s req) = false ->
  recv' req s = s.
Proof.
  intros Hd Hoff. unfold alertRoutine_recv. rewrite Hd, Hoff. reflexivity.
Qed.

Lemma recv_suppressing_recovered (req pending : Ptr) (k : nat) (s : Sys) :
  deb s = Suppressing pending k ->
  TargetStatus.Online (deref s req) = true ->
  (seconds (Config.Standoff config)
    <? time_Since (now s) (TargetStatus.Since (deref s req))) = true ->
  recv' req s =
    set_deb Waiting
      (store req
         (TargetStatus.with_Since (now s) (deref (call_alert' req s) req))
         (call_alert' req s)).
Proof.
  intros Hd Hon Hc. unfold alertRoutine_recv. rewrite Hd, Hon, Hc.
  destruct req. reflexivity.
Qed.

Lemma recv_suppressing_flap (req pending : Ptr) (k : nat) (s : Sys) :
  deb s = Suppressing pending k ->
  TargetStatus.Online (deref s req) = true ->
  (seconds (Config.Standoff config)
    <? time_Since (now s) (TargetStatus.Since (deref s req))) = false ->
  recv' req s =
    set_deb Waiting
      (store req (TargetStatus.with_Since (now s) (deref s req))
         (if debug then set_effects (effects s ++ [Logged LogSkipped]) s else s)).
Proof.
  intros Hd Hon Hc. unfold alertRoutine_recv. rewrite Hd, Hon, Hc.
  destruct req, debug; reflexivity.
Qed.

Lemma waiting_recv_step (s : Sys) (req : Ptr) (rest : list Ptr) :
  deb s = Waiting ->
  alertRequest s = req :: rest ->
  - MaxSeconds <= Config.Standoff config <= MaxSeconds ->
  exists s',
    step' Recv s = Some s'
    /\ alertRequest s' = rest
    /\ (TargetStatus.Online (deref s req) = true
        \/ 60 * Second < now s - TargetStatus.Since (deref s req) ->
        deb s' = Waiting
        /\ alerts s' = alerts s ++ [deref s req]
        /\ status s' = TargetStatus.with_LastAlert (now s) (deref s req)
        /\ timers s' = timers s)
    /\ (TargetStatus.Online (deref s req) = false
        /\ now s - TargetStatus.Since (deref s req) <= 60 * Second ->
        deb s' = Suppressing req (length (timers s))
        /\ timers s' =
             timers s
             ++ [mkTimer (now s + Config.Standoff config * Second) Armed]
        /\ alerts s' = alerts s
        /\ effects s' = effects s
        /\ status s' = status s).
Proof.
  intros Hd Hch Hrange. unfold step. rewrite Hch.
  eexists. split; [reflexivity|].
  set (s0 := set_alertRequest rest s).
  assert (Hd0 : deb s0 = Waiting) by exact Hd.
  destruct (TargetStatus.Online (deref s0 req)
            || (60 * Second <? now s0 - TargetStatus.Since (deref s0 req)))
    eqn:Hc.
  - rewrite (recv_waiting_dispatch req s0 Hd0 Hc).
    destruct (call_alert_fields req s0) as (Hst & Hal & _ & Hdb & Htm & _ & Hrq & _).
    split; [exact Hrq|]. split.
    + intros _. rewrite Hdb, Hal, Hst, Htm. destruct req. repeat split; assumption.
    + intros [Hoff Hle]. destruct req. cbn in Hc, Hoff, Hle.
      rewrite Hoff in Hc. cbn in Hc. apply Z.ltb_lt in Hc. lia.
  - rewrite (recv_waiting_suppress req s0 Hd0 Hc).
    split; [reflexivity|]. split.
    + intros [Hon|Hlt]; destruct req; cbn in Hc, Hon || cbn in Hc, Hlt.
      * rewrite Hon in Hc. discriminate.
      * apply orb_false_elim in Hc as [_ Hc]. apply Z.ltb_ge in Hc. lia.
    + intros _. cbn. rewrite (seconds_exact _ Hrange). repeat split; reflexivity.
Qed.

(** C6: in WAITING a received request is dispatched at once, and the
    debouncer stays in WAITING, when the status is online or its [Since] lies
    more than 60 seconds back, whatever the configured standoff; otherwise
    (offline and at most 60 seconds) nothing is dispatched, the request
    becomes the pending one and a new timer is armed [Standoff] seconds
    ahead. *)
Theorem C6_waiting_rule (s : Sys) (req : Ptr) (rest : list Ptr) :
  deb s = Waiting ->
  alertRequest s = req :: rest ->
  - MaxSeconds <= Config.Standoff config <= MaxSeconds ->
  exists s',
    step' Recv s = Some s'
    /\ alertRequest s' = rest
    /\ (TargetStatus.Online (deref s req) = true
        \/ 60 * Second < now s - TargetStatus.Since (deref s req) ->
        deb s' = Waiting
        /\ alerts s' = alerts s ++ [deref s req]
        /\ status s' = TargetStatus.with_LastAlert (now s) (deref s req)
        /\ timers s' = timers s)
    /\ (TargetStatus.Online (deref s req) = false
        /\ now s - TargetStatus.Since (deref s req) <= 60 * Second ->
        deb s' = Suppressing req (length (timers s))
        /\ timers s' =
             timers s
             ++ [mkTimer (now s + Config.Standoff config * Second) Armed]
        /\ alerts s' = alerts s
        /\ effects s' = effects s
        /\ status s' = status s).
Proof. exact (waiting_recv_step s req rest). Qed.

(** *** What one step does to the clock, to [Since] and to the timers *)

Lemma recv_frame (req : Ptr) (s : Sys) :
  now (recv' req s) = now s
  /\ alertRequest (recv' req s) = alertRequest s
  /\ mon (recv' req s) = mon s
  /\ res (recv' req s) = res s.
Proof.
  unfold alertRoutine_recv, call_alert, alert, time_NewTimer, store, deref.
  destruct req; destruct (deb s) eqn:Hd; cbn; break_if; cbn; rewrite ?Hd; auto.
Qed.

Lemma recv_Since (req : Ptr) (s : Sys) :
  TargetStatus.Since (status (recv' req s)) = TargetStatus.Since (status s)
  \/ (TargetStatus.Since (status (recv' req s)) = now s
      /\ current_timer s <> None
      /\ TargetStatus.Online (status s) = true).
Proof.
  unfold alertRoutine_recv, call_alert, alert, time_NewTimer, store, deref,
    current_timer.
  destruct req; destruct (deb s) eqn:Hd; cbn; break_if; cbn; rewrite ?Hd; auto;
    right; repeat split; congruence.
Qed.

Lemma recv_timers (req : Ptr) (s : Sys) :
  (timers (recv' req s) = timers s
   /\ (current_timer (recv' req s) = current_timer s
       \/ current_timer (recv' req s) = None))
  \/ (current_timer s = None
      /\ timers (recv' req s) =
           timers s ++ [mkTimer (now s + seconds (Config.Standoff config)) Armed]
      /\ current_timer (recv' req s) = Some (length (timers s))).
Proof.
  unfold alertRoutine_recv, call_alert, alert, time_NewTimer, store, deref,
    current_timer.
  destruct req; destruct (deb s) eqn:Hd; cbn; break_if; cbn; rewrite ?Hd; auto.
Qed.

Lemma cycle_Since (w : Probe) (now0 : Z) (st : TargetStatus.t) :
  let st' := fst (runTarget_cycle config addrURL t w now0 st) in
  TargetStatus.LastAlert st' = TargetStatus.LastAlert st
  /\ TargetStatus.Target st' = TargetStatus.Target st
  /\ (TargetStatus.Since st' = TargetStatus.Since st
      \/ (TargetStatus.Since st' = now0
          /\ TargetStatus.Online st = true
          /\ TargetStatus.Online st' = false)).
Proof.
  unfold runTarget_cycle. destruct (poll addrURL t w) as [failed msg].
  destruct failed, (TargetStatus.Online st) eqn:Hon; cbn; rewrite ?Hon; cbn;
    break_if; cbn; auto 6.
Qed.

Lemma step_now (l : Label) (s s' : Sys) :
  step' l s = Some s' -> now s <= now s'.
Proof.
  destruct l; cbn.
  - destruct (Z.leb_spec 0 d); [|discriminate]. intros [= <-]. cbn. lia.
  - destruct (mon s); try discriminate.
    destruct (runTarget_cycle _ _ _ _ _ _). intros [= <-]. cbn. lia.
  - destruct (mon s), (alertRequest s); try discriminate.
    intros [= <-]. cbn. lia.
  - destruct (mon s); try discriminate. intros [= <-]. cbn. lia.
  - destruct (alertRequest s) as [|req rest]; [discriminate|].
    intros [= <-]. destruct (recv_frame req (set_alertRequest rest s)) as [-> _].
    cbn. lia.
  - unfold alertRoutine_timer. destruct (deb s) as [|req k]; [discriminate|].
    destruct (timers s !! k) as [[dl []]|]; try discriminate.
    intros [= <-]. destruct req. cbn. lia.
  - destruct (timers s !! k) as [[dl []]|]; try discriminate.
    destruct (Z.leb_spec dl (now s)); [|discriminate]. intros [= <-]. cbn. lia.
Qed.

Lemma step_Since (l : Label) (s s' : Sys) :
  step' l s = Some s' ->
  TargetStatus.Since (status s') = TargetStatus.Since (status s)
  \/ TargetStatus.Since (status s') = now s'.
Proof.
  destruct l; cbn.
  - destruct (Z.leb_spec 0 d); [|discriminate]. intros [= <-]. cbn. auto.
  - destruct (mon s); try discriminate.
    pose proof (cycle_Since w (now s) (status s)) as Hc.
    destruct (runTarget_cycle _ _ _ _ _ _) as [st' emit]. cbn in Hc.
    intros [= <-]. cbn. tauto.
  - destruct (mon s), (alertRequest s); try discriminate.
    intros [= <-]. cbn. auto.
  - destruct (mon s); try discriminate. intros [= <-]. cbn. auto.
  - destruct (alertRequest s) as [|req rest]; [discriminate|].
    intros [= <-].
    destruct (recv_frame req (set_alertRequest rest s)) as [-> _].
    destruct (recv_Since req (set_alertRequest rest s)) as [H|[H _]];
      cbn in *; auto.
  - unfold alertRoutine_timer. destruct (deb s) as [|req k]; [discriminate|].
    destruct (timers s !! k) as [[dl []]|]; try discriminate.
    intros [= <-]. destruct req. cbn. auto.
  - destruct (timers s !! k) as [[dl []]|]; try discriminate.
    destruct (Z.leb_spec dl (now s)); [|discriminate]. intros [= <-]. cbn. auto.
Qed.

Lemma step_timers (l : Label) (s s' : Sys) :
  step' l s = Some s' -> timers_change s s'.
Proof.
  destruct l; cbn.
  - destruct (Z.leb_spec 0 d); [|discriminate]. intros [= <-].
    apply tc_same; cbn; auto.
  - destruct (mon s); try discriminate.
    destruct (runTarget_cycle _ _ _ _ _ _). intros [= <-].
    apply tc_same; cbn; auto.
  - destruct (mon s), (alertRequest s); try discriminate.
    intros [= <-]. apply tc_same; cbn; auto.
  - destruct (mon s); try discriminate. intros [= <-].
    apply tc_same; cbn; auto.
  - destruct (alertRequest s) as [|req rest]; [discriminate|].
    intros [= <-].
    destruct (recv_timers req (set_alertRequest rest s))
      as [[Ht Hc]|(Hn & Ht & Hc)].
    + apply tc_same; assumption.
    + eapply tc_new; eassumption.
  - unfold alertRoutine_timer, current_timer.
    destruct (deb s) as [|req k] eqn:Hd; [discriminate|].
    destruct (timers s !! k) as [[dl []]|] eqn:Hk; try discriminate.
    intros [= <-]. destruct req.
    apply (tc_drain _ _ k dl); cbn; auto.
    unfold current_timer. rewrite Hd. reflexivity.
  - destruct (timers s !! k) as [[dl []]|] eqn:Hk; try discriminate.
    destruct (Z.leb_spec dl (now s)); [|discriminate]. intros [= <-].
    apply (tc_expire _ _ k dl); cbn; auto.
Qed.

(** *** Invariants *)

Lemma Inv_init (now0 : Z) : Inv (init t now0).
Proof.
  repeat split.
  - intros k Hk. discriminate Hk.
  - unfold Since_in_past. cbn. lia.
  - intros k tm Hk. discriminate Hk.
Qed.

(** A timer keeps its place and its deadline; it becomes [Drained] only
    when the debouncer, selecting on it, receives from its channel. *)
Lemma step_timer_kept (l : Label) (s s' : Sys) (k : nat) (tm : Timer) :
  step' l s = Some s' ->
  timers s !! k = Some tm ->
  exists tm',
    timers s' !! k = Some tm'
    /\ deadline tm' = deadline tm
    /\ (tstate tm' = Drained -> tstate tm = Drained \/ current_timer s = Some k)
    /\ (tstate tm' = Armed -> tstate tm = Armed).
Proof.
  intros Hstep Hk. pose proof (lookup_lt_Some _ _ _ Hk) as Hlt.
  destruct (step_timers l s s' Hstep) as [Ht _|dl _ Ht _|j dl Hj _ Ht _|j dl Hc Hj Ht _];
    rewrite Ht.
  - exists tm. auto.
  - exists tm. rewrite lookup_app_l by exact Hlt. auto.
  - destruct (decide (j = k)) as [->|Hne].
    + rewrite list_lookup_insert_eq by exact Hlt.
      rewrite Hk in Hj. injection Hj as ->.
      eexists. split; [reflexivity|]. cbn. repeat split; intros; discriminate.
    + rewrite list_lookup_insert_ne by exact Hne. exists tm. auto.
  - destruct (decide (j = k)) as [->|Hne].
    + rewrite list_lookup_insert_eq by exact Hlt.
      rewrite Hk in Hj. injection Hj as ->.
      eexists. split; [reflexivity|]. cbn. repeat split; auto; intros; discriminate.
    + rewrite list_lookup_insert_ne by exact Hne. exists tm. auto.
Qed.

Lemma step_Inv (l : Label) (s s' : Sys) :
  step' l s = Some s' -> Inv s -> Inv s'.
Proof.
  intros Hstep (Hnew & Hsince & Hdue).
  pose proof (step_now l s s' Hstep) as Hnow.
  repeat split.
  - intros k Hk.
    destruct (step_timers l s s' Hstep)
      as [Ht [Hc|Hc]|dl _ Ht Hc|j dl _ _ Ht Hc|j dl _ _ Ht Hc]; rewrite Ht.
    + apply Hnew. congruence.
    + congruence.
    + rewrite length_app. cbn. rewrite Hc in Hk. injection Hk as <-. lia.
    + rewrite length_insert. apply Hnew. congruence.
    + congruence.
  - unfold Since_in_past in *.
    destruct (step_Since l s s' Hstep) as [-> | ->]; lia.
  - intros k tm' Hk Hfired.
    destruct (step_timers l s s' Hstep)
      as [Ht _|dl _ Ht _|j dl Hj Hdl Ht _|j dl _ Hj Ht _]; rewrite Ht in Hk.
    + specialize (Hdue k tm' Hk Hfired). lia.
    + apply lookup_snoc_Some in Hk as [[_ Hk]|[_ <-]].
      * specialize (Hdue k tm' Hk Hfired). lia.
      * cbn in Hfired. congruence.
    + apply list_lookup_insert_Some in Hk as [(_ & <- & _)|[_ Hk]].
      * cbn. lia.
      * specialize (Hdue k tm' Hk Hfired). lia.
    + apply list_lookup_insert_Some in Hk as [(_ & <- & _)|[_ Hk]].
      * assert (dl <= now s) by (apply (Hdue j _ Hj); cbn; congruence).
        cbn. lia.
      * specialize (Hdue k tm' Hk Hfired). lia.
Qed.

Lemma run_Inv (tr : list Label) (s s' : Sys) :
  run' tr s = Some s' -> Inv s -> Inv s'.
Proof.
  revert s. induction tr as [|l tr IH]; intros s; cbn.
  - intros [= <-]. auto.
  - destruct (step' l s) as [s1|] eqn:Hstep; [|discriminate].
    intros Hrun Hinv. apply (IH s1 Hrun). exact (step_Inv l s s1 Hstep Hinv).
Qed.

Lemma reachable_Inv (s : Sys) : reachable' s -> Inv s.
Proof.
  intros (now0 & tr & Hrun). exact (run_Inv tr _ s Hrun (Inv_init now0)).
Qed.

Lemma run_now (tr : list Label) (s s' : Sys) :
  run' tr s = Some s' -> now s <= now s'.
Proof.
  revert s. induction tr as [|l tr IH]; intros s; cbn.
  - intros [= <-]. lia.
  - destruct (step' l s) as [s1|] eqn:Hstep; [|discriminate].
    intros Hrun. pose proof (step_now l s s1 Hstep). specialize (IH s1 Hrun). lia.
Qed.

(** Once a timer's cycle is over the debouncer never selects on it again,
    and so never receives from its channel. *)
Lemma step_abandoned (l : Label) (s s' : Sys) (k : nat) :
  step' l s = Some s' -> abandoned s k -> abandoned s' k.
Proof.
  intros Hstep [Hlt Hnc]. unfold abandoned.
  destruct (step_timers l s s' Hstep)
    as [Ht [Hc|Hc]|dl _ Ht Hc|j dl _ _ Ht Hc|j dl _ _ Ht Hc]; rewrite Ht, Hc.
  - auto.
  - split; [exact Hlt | discriminate].
  - rewrite length_app. cbn. split; [lia|]. intros [= Heq]. lia.
  - rewrite length_insert. auto.
  - rewrite length_insert. split; [exact Hlt | discriminate].
Qed.

Lemma run_abandoned (tr : list Label) (s s' : Sys) (k : nat) (tm : Timer) :
  run' tr s = Some s' ->
  abandoned s k ->
  timers s !! k = Some tm ->
  abandoned s' k
  /\ exists tm',
       timers s' !! k = Some tm'
       /\ deadline tm' = deadline tm
       /\ (tstate tm' = Drained -> tstate tm = Drained).
Proof.
  revert s tm. induction tr as [|l tr IH]; intros s tm; cbn.
  - intros [= <-] Hab Hk. split; [exact Hab|]. exists tm. auto.
  - destruct (step' l s) as [s1|] eqn:Hstep; [|discriminate].
    intros Hrun Hab Hk.
    destruct (step_timer_kept l s s1 k tm Hstep Hk) as (tm1 & Hk1 & Hdl1 & Hdr1 & _).
    pose proof (step_abandoned l s s1 k Hstep Hab) as Hab1.
    destruct (IH s1 tm1 Hrun Hab1 Hk1) as (Hab' & tm' & Hk' & Hdl' & Hdr').
    split; [exact Hab'|]. exists tm'. split; [exact Hk'|]. split; [congruence|].
    intros Hd. destruct (Hdr1 (Hdr' Hd)) as [H|H]; [exact H|].
    destruct Hab as [_ Hnc]. contradiction.
Qed.

(** *** Recovery during suppression *)

Lemma recv_recovery_resolves (req pending : Ptr) (k : nat) (s : Sys) :
  deb s = Suppressing pending k ->
  TargetStatus.Online (deref s req) = true ->
  deb (recv' req s) = Waiting
  /\ timers (recv' req s) = timers s
  /\ TargetStatus.Since (status (recv' req s)) = now s.
Proof.
  intros Hd Hon. unfold alertRoutine_recv. rewrite Hd, Hon.
  destruct req. unfold call_alert, alert, store, deref.
  cbn. break_if; cbn; auto.
Qed.

Lemma expire_frame (k : nat) (s s' : Sys) :
  step' (Expire k) s = Some s' ->
  status s' = status s /\ alerts s' = alerts s /\ effects s' = effects s
  /\ deb s' = deb s /\ alertRequest s' = alertRequest s
  /\ mon s' = mon s /\ res s' = res s /\ now s' = now s.
Proof.
  cbn. destruct (timers s !! k) as [[dl []]|]; try discriminate.
  destruct (dl <=? now s); [|discriminate].
  intros [= <-]. cbn. repeat split; reflexivity.
Qed.

Lemma timerC_enabled (s s' : Sys) :
  step' TimerC s = Some s' ->
  exists j dl,
    current_timer s = Some j /\ timers s !! j = Some (mkTimer dl Ready).
Proof.
  cbn. unfold alertRoutine_timer, current_timer.
  destruct (deb s) as [|req j]; [discriminate|].
  destruct (timers s !! j) as [[dl []]|] eqn:Hj; try discriminate.
  intros _. exists j, dl. auto.
Qed.

(** C5: in SUPPRESSING a received request that reads online ends the cycle.
    When the time since its [Since] exceeds [Standoff] seconds exactly that
    status is dispatched, otherwise nothing is dispatched and nothing is
    handed to a transport; either way the debouncer is back in WAITING with
    the timer left as it was, and from then on the debouncer never selects
    on that timer again nor receives from it, so the withheld request is not
    dispatched by it. *)
Theorem C5_recovery_during_suppression
    (s : Sys) (pending req2 : Ptr) (k : nat) (rest : list Ptr) (tm : Timer) :
  deb s = Suppressing pending k ->
  timers s !! k = Some tm ->
  alertRequest s = req2 :: rest ->
  TargetStatus.Online (deref s req2) = true ->
  - MaxSeconds <= Config.Standoff config <= MaxSeconds ->
  exists s',
    step' Recv s = Some s'
    /\ deb s' = Waiting
    /\ timers s' = timers s
    /\ (Config.Standoff config * Second
          < now s - TargetStatus.Since (deref s req2) ->
        alerts s' = alerts s ++ [deref s req2])
    /\ (now s - TargetStatus.Since (deref s req2)
          <= Config.Standoff config * Second ->
        alerts s' = alerts s
        /\ deliveries (effects s') = deliveries (effects s))
    /\ (forall tr s'', run' tr s' = Some s'' ->
        current_timer s'' <> Some k
        /\ exists tm', timers s'' !! k = Some tm'
                       /\ (tstate tm' = Drained -> tstate tm = Drained)).
Proof.
  intros Hd Hk Hch Hon Hrange. unfold step. rewrite Hch.
  eexists. split; [reflexivity|].
  set (s0 := set_alertRequest rest s).
  assert (Hd0 : deb s0 = Suppressing pending k) by exact Hd.
  assert (Hon0 : TargetStatus.Online (deref s0 req2) = true)
    by (destruct req2; exact Hon).
  destruct (recv_recovery_resolves req2 pending k s0 Hd0 Hon0) as (Hw & Ht & _).
  split; [exact Hw|]. split; [exact Ht|].
  pose proof (seconds_lt_Since (Config.Standoff config) (now s0)
                (TargetStatus.Since (deref s0 req2)) Hrange) as Hcmp.
  assert (Hsame : now s0 - TargetStatus.Since (deref s0 req2)
                  = now s - TargetStatus.Since (deref s req2))
    by (destruct req2; reflexivity).
  rewrite Hsame in Hcmp.
  split; [|split].
  - intros Hlt. apply Z.ltb_lt in Hlt. rewrite <- Hcmp in Hlt.
    rewrite (recv_suppressing_recovered req2 pending k s0 Hd0 Hon0 Hlt).
    destruct req2. reflexivity.
  - intros Hle. apply Z.ltb_ge in Hle. rewrite <- Hcmp in Hle.
    rewrite (recv_suppressing_flap req2 pending k s0 Hd0 Hon0 Hle).
    destruct req2, debug; cbn; [|auto].
    split; [reflexivity|]. rewrite deliveries_app. cbn. apply app_nil_r.
  - intros tr s'' Hrun.
    assert (Hab : abandoned (recv' req2 s0) k).
    { split.
      - rewrite Ht. exact (lookup_lt_Some _ _ _ Hk).
      - unfold current_timer. rewrite Hw. discriminate. }
    assert (Hk0 : timers (recv' req2 s0) !! k = Some tm) by (rewrite Ht; exact Hk).
    destruct (run_abandoned tr _ s'' k tm Hrun Hab Hk0)
      as ([_ Hnc] & tm' & Hk' & _ & Hdr).
    split; [exact Hnc|]. exists tm'. auto.
Qed.

(** C9: after a recovery has ended a suppression cycle, the timer of that
    cycle is out of play in every continuation: the debouncer never selects
    on it again, nothing is ever received from its channel, its expiry
    changes no status, dispatch, control state or queue, and a receive from
    a timer channel is only ever possible on the ready timer of the cycle
    then running, which is another one. *)
Theorem C9_resolved_timer_is_inert
    (s s' : Sys) (pending req2 : Ptr) (k : nat) (rest : list Ptr) (tm : Timer) :
  deb s = Suppressing pending k ->
  timers s !! k = Some tm ->
  alertRequest s = req2 :: rest ->
  TargetStatus.Online (deref s req2) = true ->
  step' Recv s = Some s' ->
  forall tr s1, run' tr s' = Some s1 ->
    current_timer s1 <> Some k
    /\ (exists tm1,
          timers s1 !! k = Some tm1
          /\ deadline tm1 = deadline tm
          /\ (tstate tm1 = Drained -> tstate tm = Drained))
    /\ (forall s2, step' (Expire k) s1 = Some s2 ->
          status s2 = status s1 /\ alerts s2 = alerts s1
          /\ effects s2 = effects s1 /\ deb s2 = deb s1
          /\ alertRequest s2 = alertRequest s1)
    /\ (forall s2, step' TimerC s1 = Some s2 ->
          exists j dl,
            j <> k /\ current_timer s1 = Some j
            /\ timers s1 !! j = Some (mkTimer dl Ready)).
Proof.
  intros Hd Hk Hch Hon Hstep tr s1 Hrun.
  unfold step in Hstep. rewrite Hch in Hstep. injection Hstep as <-.
  set (s0 := set_alertRequest rest s) in *.
  assert (Hd0 : deb s0 = Suppressing pending k) by exact Hd.
  assert (Hon0 : TargetStatus.Online (deref s0 req2) = true)
    by (destruct req2; exact Hon).
  destruct (recv_recovery_resolves req2 pending k s0 Hd0 Hon0) as (Hw & Ht & _).
  assert (Hab : abandoned (recv' req2 s0) k).
  { split.
    - rewrite Ht. exact (lookup_lt_Some _ _ _ Hk).
    - unfold current_timer. rewrite Hw. discriminate. }
  assert (Hk0 : timers (recv' req2 s0) !! k = Some tm) by (rewrite Ht; exact Hk).
  destruct (run_abandoned tr _ s1 k tm Hrun Hab Hk0)
    as ([_ Hnc] & tm1 & Hk1 & Hdl & Hdr).
  split; [exact Hnc|]. split; [exists tm1; auto|]. split.
  - intros s2 Hexp. pose proof (expire_frame k s1 s2 Hexp). tauto.
  - intros s2 Hfire. destruct (timerC_enabled s1 s2 Hfire) as (j & dl & Hc & Hj).
    exists j, dl. repeat split; auto. intros ->. contradiction.
Qed.

(** *** The timer branch and what follows it *)

Lemma run_timer_kept (tr : list Label) (s s' : Sys) (k : nat) (tm : Timer) :
  run' tr s = Some s' ->
  timers s !! k = Some tm ->
  exists tm', timers s' !! k = Some tm' /\ deadline tm' = deadline tm.
Proof.
  revert s tm. induction tr as [|l tr IH]; intros s tm; cbn.
  - intros [= <-] Hk. exists tm. auto.
  - destruct (step' l s) as [s1|] eqn:Hstep; [|discriminate].
    intros Hrun Hk.
    destruct (step_timer_kept l s s1 k tm Hstep Hk) as (tm1 & Hk1 & Hdl1 & _).
    destruct (IH s1 tm1 Hrun Hk1) as (tm' & Hk' & Hdl').
    exists tm'. split; [exact Hk' | congruence].
Qed.

Lemma timerC_dispatches (s s' : Sys) (req : Ptr) (k : nat) :
  deb s = Suppressing req k ->
  step' TimerC s = Some s' ->
  deb s' = Waiting
  /\ alerts s' = alerts s ++ [deref s req]
  /\ status s' = TargetStatus.with_LastAlert (now s) (deref s req)
  /\ exists dl, timers s !! k = Some (mkTimer dl Ready).
Proof.
  intros Hd. cbn. unfold alertRoutine_timer. rewrite Hd.
  destruct (timers s !! k) as [[dl []]|] eqn:Hk; try discriminate.
  intros [= <-]. destruct req. cbn. repeat split. exists dl. reflexivity.
Qed.

(** C1 (as the code has it): in any run, when the debouncer receives from
    the timer of the running cycle it dispatches the pending status and is
    back in WAITING. A later request received in WAITING that reads offline
    with the [Since] of that same outage is dispatched at once provided the
    standoff is at least 60 seconds and the clock has moved on since the
    timer was received: then more than 60 seconds separate it from
    [Since]. *)
Theorem C1_timer_then_still_down
    (s0 s1 s2 s3 s4 : Sys) (tr1 tr2 : list Label)
    (req0 req r : Ptr) (rest0 rest : list Ptr) :
  reachable' s0 ->
  deb s0 = Waiting ->
  alertRequest s0 = req0 :: rest0 ->
  TargetStatus.Online (deref s0 req0) = false ->
  now s0 - TargetStatus.Since (deref s0 req0) <= 60 * Second ->
  step' Recv s0 = Some s1 ->
  run' tr1 s1 = Some s2 ->
  deb s2 = Suppressing req (length (timers s0)) ->
  step' TimerC s2 = Some s3 ->
  60 <= Config.Standoff config <= MaxSeconds ->
  run' tr2 s3 = Some s4 ->
  deb s4 = Waiting ->
  alertRequest s4 = r :: rest ->
  TargetStatus.Online (deref s4 r) = false ->
  TargetStatus.Since (deref s4 r) = TargetStatus.Since (deref s0 req0) ->
  now s3 < now s4 ->
  (deb s3 = Waiting /\ alerts s3 = alerts s2 ++ [deref s2 req])
  /\ 60 * Second < now s4 - TargetStatus.Since (deref s4 r)
  /\ exists s5,
       step' Recv s4 = Some s5
       /\ deb s5 = Waiting
       /\ alerts s5 = alerts s4 ++ [deref s4 r].
Proof.
  intros Hreach Hd0 Hch0 Hoff0 Hle0 Hstep0 Hrun1 Hd2 Hfire Hrange Hrun2
    Hd4 Hch4 Hoff4 Hsince Hlater.
  pose proof (reachable_Inv s0 Hreach) as Hinv.
  assert (Hrange' : - MaxSeconds <= Config.Standoff config <= MaxSeconds)
    by (unfold MaxSeconds in *; lia).
  (* entering the cycle arms timer [length (timers s0)] *)
  destruct (waiting_recv_step s0 req0 rest0 Hd0 Hch0 Hrange')
    as (s1' & Hstep0' & _ & _ & Henter).
  rewrite Hstep0 in Hstep0'. injection Hstep0' as <-.
  destruct (Henter (conj Hoff0 Hle0)) as (_ & Ht1 & _).
  assert (Hk1 : timers s1 !! length (timers s0)
                = Some (mkTimer (now s0 + Config.Standoff config * Second) Armed)).
  { rewrite Ht1. apply lookup_snoc_Some. right. auto. }
  destruct (run_timer_kept tr1 s1 s2 _ _ Hrun1 Hk1) as (tm2 & Hk2 & Hdl2).
  (* when it is received from, it was due *)
  pose proof (run_Inv tr1 s1 s2 Hrun1 (step_Inv Recv s0 s1 Hstep0 Hinv))
    as (_ & _ & Hdue2).
  destruct (timerC_dispatches s2 s3 req _ Hd2 Hfire) as (Hw3 & Hal3 & _ & dl & Hready).
  rewrite Hk2 in Hready. injection Hready as ->.
  assert (Hdl : now s0 + Config.Standoff config * Second <= now s2).
  { cbn in Hdl2. rewrite <- Hdl2. apply (Hdue2 _ _ Hk2). cbn. discriminate. }
  pose proof (step_now TimerC s2 s3 Hfire) as Hn23.
  destruct Hinv as (_ & Hpast & _). unfold Since_in_past in Hpast.
  assert (Hgt : 60 * Second < now s4 - TargetStatus.Since (deref s4 r)).
  { rewrite Hsince. destruct req0. cbn [deref]. unfold Second in *. lia. }
  split; [auto|]. split; [exact Hgt|].
  destruct (waiting_recv_step s4 r rest Hd4 Hch4 Hrange')
    as (s5 & Hstep4 & _ & Hdisp & _).
  exists s5. split; [exact Hstep4|].
  destruct (Hdisp (or_intror Hgt)) as (Hw5 & Hal5 & _). auto.
Qed.

(** *** Who writes the status, and what the sink holds *)

Lemma recv_status_frame (req : Ptr) (s : Sys) :
  TargetStatus.Target (status (recv' req s)) = TargetStatus.Target (status s)
  /\ TargetStatus.Online (status (recv' req s)) = TargetStatus.Online (status s)
  /\ TargetStatus.ErrorMsg (status (recv' req s)) = TargetStatus.ErrorMsg (status s)
  /\ TargetStatus.LastCheck (status (recv' req s)) = TargetStatus.LastCheck (status s).
Proof.
  unfold alertRoutine_recv, call_alert, alert, time_NewTimer, store, deref.
  destruct req; destruct (deb s) eqn:Hd; cbn; break_if; cbn; auto.
Qed.

Lemma step_res (l : Label) (s s' : Sys) :
  step' l s = Some s' ->
  res s' = res s \/ (l = SendRes /\ res s' = res s ++ [status s]).
Proof.
  destruct l; cbn.
  - destruct (0 <=? d); [|discriminate]. intros [= <-]. auto.
  - destruct (mon s); try discriminate.
    destruct (runTarget_cycle _ _ _ _ _ _). intros [= <-]. auto.
  - destruct (mon s), (alertRequest s); try discriminate. intros [= <-]. auto.
  - destruct (mon s); try discriminate. intros [= <-]. auto.
  - destruct (alertRequest s) as [|req rest]; [discriminate|]. intros [= <-].
    destruct (recv_frame req (set_alertRequest rest s)) as (_ & _ & _ & ->). auto.
  - unfold alertRoutine_timer. destruct (deb s) as [|req k]; [discriminate|].
    destruct (timers s !! k) as [[dl []]|]; try discriminate.
    intros [= <-]. destruct req. auto.
  - destruct (timers s !! k) as [[dl []]|]; try discriminate.
    destruct (dl <=? now s); [|discriminate]. intros [= <-]. auto.
Qed.

Lemma run_res (tr : list Label) (s s' : Sys) (i : nat) (v : TargetStatus.t) :
  run' tr s = Some s' -> res s !! i = Some v -> res s' !! i = Some v.
Proof.
  revert s. induction tr as [|l tr IH]; intros s; cbn.
  - intros [= <-]. auto.
  - destruct (step' l s) as [s1|] eqn:Hstep; [|discriminate].
    intros Hrun Hi. apply (IH s1 Hrun).
    destruct (step_res l s s1 Hstep) as [-> | [_ ->]]; [exact Hi|].
    rewrite lookup_app_l; [exact Hi | exact (lookup_lt_Some _ _ _ Hi)].
Qed.

Lemma step_status (l : Label) (s s' : Sys) :
  step' l s = Some s' -> status_written_by l (status s) (status s').
Proof.
  destruct l; cbn.
  - destruct (0 <=? d); [|discriminate]. intros [= <-]. reflexivity.
  - destruct (mon s); try discriminate.
    pose proof (cycle_Since w (now s) (status s)) as Hc.
    destruct (runTarget_cycle _ _ _ _ _ _) as [st' emit]. cbn in Hc.
    intros [= <-]. cbn. tauto.
  - destruct (mon s), (alertRequest s); try discriminate.
    intros [= <-]. reflexivity.
  - destruct (mon s); try discriminate. intros [= <-]. reflexivity.
  - destruct (alertRequest s) as [|req rest]; [discriminate|]. intros [= <-].
    exact (recv_status_frame req (set_alertRequest rest s)).
  - unfold alertRoutine_timer. destruct (deb s) as [|req k]; [discriminate|].
    destruct (timers s !! k) as [[dl []]|]; try discriminate.
    intros [= <-]. destruct req. cbn. auto.
  - destruct (timers s !! k) as [[dl []]|]; try discriminate.
    destruct (dl <=? now s); [|discriminate]. intros [= <-]. reflexivity.
Qed.

(** C3 (as the code has it): a value sent on [res] is a copy of [status]
    taken at the send and stays what it was in every continuation. The
    debouncer is handed the address of the monitor's [status], so what it
    holds is the live variable: the value it dispatches is the one [status]
    has at that moment. Both goroutines write that variable: a monitor cycle
    writes any field but [Target] and [LastAlert], the debouncer writes
    [LastAlert] and [Since] and no other field, and no other step writes
    it. *)
Theorem C3_copies_to_sink_pointer_to_debouncer
    (l : Label) (tr : list Label) (s s1 s2 : Sys) :
  step' l s = Some s1 ->
  run' tr s1 = Some s2 ->
  (res s1 = res s \/ (l = SendRes /\ res s1 = res s ++ [status s]))
  /\ (forall i v, res s1 !! i = Some v -> res s2 !! i = Some v)
  /\ (forall p, deref s p = status s)
  /\ (forall p k, deb s = Suppressing p k -> l = TimerC ->
        alerts s1 = alerts s ++ [status s])
  /\ status_written_by l (status s) (status s1).
Proof.
  intros Hstep Hrun.
  split; [exact (step_res l s s1 Hstep)|].
  split; [intros i v; exact (run_res tr s1 s2 i v Hrun)|].
  split; [intros []; reflexivity|].
  split; [|exact (step_status l s s1 Hstep)].
  intros p k Hd ->.
  destruct (timerC_dispatches s s1 p k Hd Hstep) as (_ & Hal & _).
  destruct p. exact Hal.
Qed.

Lemma cycle_down_edge (w : Probe) (now0 : Z) (st : TargetStatus.t) :
  TargetStatus.Online st = true ->
  fst (poll addrURL t w) = true ->
  TargetStatus.Online (fst (runTarget_cycle config addrURL t w now0 st)) = false
  /\ TargetStatus.Since (fst (runTarget_cycle config addrURL t w now0 st)) = now0.
Proof.
  intros Hon Hfail. unfold runTarget_cycle.
  destruct (poll addrURL t w) as [failed msg]. cbn in Hfail. subst failed.
  cbn. rewrite Hon. cbn. auto.
Qed.

Lemma cycle_up_edge (w : Probe) (now0 : Z) (st : TargetStatus.t) :
  TargetStatus.Online st = false ->
  fst (poll addrURL t w) = false ->
  TargetStatus.Online (fst (runTarget_cycle config addrURL t w now0 st)) = true
  /\ TargetStatus.Since (fst (runTarget_cycle config addrURL t w now0 st))
     = TargetStatus.Since st.
Proof.
  intros Hoff Hok. unfold runTarget_cycle.
  destruct (poll addrURL t w) as [failed msg]. cbn in Hok. subst failed.
  cbn. rewrite Hoff. cbn. auto.
Qed.

Lemma step_Cycle_status (w : Probe) (s s' : Sys) :
  step' (Cycle w) s = Some s' ->
  status s' = fst (runTarget_cycle config addrURL t w (now s) (status s)).
Proof.
  cbn. destruct (mon s); try discriminate.
  destruct (runTarget_cycle _ _ _ _ _ _) as [st' emit].
  intros [= <-]. reflexivity.
Qed.

(** C4 (as the code has it): [Since] is written in two cases, and in no
    other, both setting it to the clock: the monitor cycle that takes the
    target from online to offline does set [Since] to the clock, and so does
    the debouncer when, in SUPPRESSING, it receives a request that reads
    online; every step that changes [Since] is one of these two. The monitor
    cycle that finds an offline target healthy sets [Online] and leaves
    [Since] as it was. *)
Theorem C4_Since_writers (l : Label) (s s' : Sys) :
  step' l s = Some s' ->
  (TargetStatus.Since (status s') = TargetStatus.Since (status s)
   \/ (exists w, l = Cycle w
                 /\ TargetStatus.Online (status s) = true
                 /\ TargetStatus.Online (status s') = false
                 /\ TargetStatus.Since (status s') = now s)
   \/ (l = Recv
       /\ current_timer s <> None
       /\ TargetStatus.Online (status s) = true
       /\ TargetStatus.Online (status s') = true
       /\ TargetStatus.Since (status s') = now s))
  /\ (forall w, l = Cycle w ->
        TargetStatus.Online (status s) = false ->
        TargetStatus.Online (status s') = true ->
        TargetStatus.Since (status s') = TargetStatus.Since (status s))
  /\ (forall w, l = Cycle w ->
        TargetStatus.Online (status s) = true ->
        fst (poll addrURL t w) = true ->
        TargetStatus.Online (status s') = false
        /\ TargetStatus.Since (status s') = now s)
  /\ (forall w, l = Cycle w ->
        TargetStatus.Online (status s) = false ->
        fst (poll addrURL t w) = false ->
        TargetStatus.Online (status s') = true
        /\ TargetStatus.Since (status s') = TargetStatus.Since (status s))
  /\ (l = Recv ->
        current_timer s <> None ->
        TargetStatus.Online (status s) = true ->
        TargetStatus.Online (status s') = true
        /\ TargetStatus.Since (status s') = now s).
Proof.
  intros Hstep.
  assert (Hcases :
    TargetStatus.Since (status s') = TargetStatus.Since (status s)
    \/ (exists w, l = Cycle w
                  /\ TargetStatus.Online (status s) = true
                  /\ TargetStatus.Online (status s') = false
                  /\ TargetStatus.Since (status s') = now s)
    \/ (l = Recv
        /\ current_timer s <> None
        /\ TargetStatus.Online (status s) = true
        /\ TargetStatus.Online (status s') = true
        /\ TargetStatus.Since (status s') = now s)).
  { pose proof (step_status l s s' Hstep) as Hw.
    destruct l; cbn in Hw; try (left; congruence).
    - cbn in Hstep. destruct (mon s); try discriminate.
      pose proof (cycle_Since w (now s) (status s)) as Hc.
      destruct (runTarget_cycle _ _ _ _ _ _) as [st' emit]. cbn in Hc.
      injection Hstep as <-. cbn.
      destruct Hc as (_ & _ & [Hc|Hc]); [left; exact Hc|].
      right; left. exists w. tauto.
    - cbn in Hstep.
      destruct (alertRequest s) as [|req rest]; [discriminate|].
      injection Hstep as <-.
      destruct (recv_Since req (set_alertRequest rest s))
        as [Hc|(Hc & Hcur & Hon)]; [left; exact Hc|].
      right; right. destruct Hw as (_ & Hon' & _).
      cbn in *. repeat split; try assumption. congruence.
    - cbn in Hstep. unfold alertRoutine_timer in Hstep.
      destruct (deb s) as [|req k]; [discriminate|].
      destruct (timers s !! k) as [[dl []]|]; try discriminate.
      injection Hstep as <-. destruct req. left. reflexivity. }
  split; [exact Hcases|]. split.
  { intros w -> Hoff Hon.
    destruct Hcases as [H|[(w' & _ & Hon0 & _)|(Hl & _)]];
      [exact H | congruence | discriminate]. }
  split; [|split].
  - intros w -> Hon Hfail. rewrite (step_Cycle_status w s s' Hstep).
    exact (cycle_down_edge w (now s) (status s) Hon Hfail).
  - intros w -> Hoff Hok. rewrite (step_Cycle_status w s s' Hstep).
    exact (cycle_up_edge w (now s) (status s) Hoff Hok).
  - intros -> Hcur Hon. cbn in Hstep.
    destruct (alertRequest s) as [|req rest]; [discriminate|].
    injection Hstep as <-.
    set (s0 := set_alertRequest rest s).
    destruct (deb s) as [|pending k] eqn:Hd;
      [unfold current_timer in Hcur; rewrite Hd in Hcur; contradiction|].
    assert (Hd0 : deb s0 = Suppressing pending k) by exact Hd.
    assert (Hon0 : TargetStatus.Online (deref s0 req) = true)
      by (destruct req; exact Hon).
    destruct (recv_recovery_resolves req pending k s0 Hd0 Hon0) as (_ & _ & Hs).
    destruct (recv_status_frame req s0) as (_ & Hon' & _).
    split; [rewrite Hon'; exact Hon | exact Hs].
Qed.

End Behaviour.

(** ** The scenarios, run *)

Import Scenario.

Ltac by_compute :=
  vm_compute;
  first [ reflexivity
        | discriminate
        | intros ?; discriminate
        | split; intros ?; discriminate ].

(** Scenario A: down at [T0], recovery 30 seconds later, standoff 60: no
    dispatch. *)
Example scenario_A :
  alerts (after 60 10 (outage ++ [Recv; sec 30; Cycle up; SendAlert; SendRes; Recv]))
  = [].
Proof. reflexivity. Qed.

(** Scenario B: down at [T0], the timer is received from at 60 seconds: one
    dispatch, of the offline status. *)
Example scenario_B :
  map TargetStatus.Online
    (alerts (after 60 10 (outage ++ [Recv; sec 60; Expire 0%nat; TimerC])))
  = [false].
Proof. reflexivity. Qed.

(** Scenario D: the request is received 120 seconds after [Since]: it is
    dispatched at once. *)
Example scenario_D :
  map TargetStatus.Online (alerts (after 60 10 (outage ++ [sec 120; Recv])))
  = [false].
Proof. reflexivity. Qed.

Lemma C8_still_down_renotify_witness :
  exists s',
    step_ 60 10 (Cycle down) (after 60 10 (outage ++ [Recv; sec 30])) = Some s'
    /\ mon s' = AtSendAlert.
Proof.
  destruct (C8_still_down_renotify false cmd_ok mail_ok (cfg 60 10) url tgt down
              (after 60 10 (outage ++ [Recv; sec 30])))
    as (s' & Hstep & Hsend & _); try by_compute.
  exists s'. split; [exact Hstep|]. apply Hsend. by_compute.
Defined.

Lemma C6_waiting_rule_witness :
  exists s',
    step_ 60 10 Recv (after 60 10 outage) = Some s'
    /\ deb s' = Suppressing addr_status 0
    /\ alerts s' = [].
Proof.
  destruct (C6_waiting_rule false cmd_ok mail_ok (cfg 60 10) url tgt
              (after 60 10 outage) addr_status [])
    as (s' & Hstep & _ & _ & Hsup); try by_compute.
  exists s'. split; [exact Hstep|].
  destruct Hsup as (Hd & _ & Hal & _); [split; by_compute|].
  split; [exact Hd | exact Hal].
Defined.

Lemma C5_recovery_during_suppression_witness :
  exists s',
    step_ 60 10 Recv
      (after 60 10 (outage ++ [Recv; sec 30; Cycle up; SendAlert])) = Some s'
    /\ deb s' = Waiting
    /\ alerts s' = [].
Proof.
  destruct (C5_recovery_during_suppression false cmd_ok mail_ok (cfg 60 10) url tgt
              (after 60 10 (outage ++ [Recv; sec 30; Cycle up; SendAlert]))
              addr_status addr_status 0%nat []
              (mkTimer (T0 + 60 * Second) Armed))
    as (s' & Hstep & Hd & _ & _ & Hflap & _); try by_compute.
  exists s'. split; [exact Hstep|]. split; [exact Hd|].
  destruct Hflap as [Hal _]; [by_compute | exact Hal].
Defined.

Lemma C9_resolved_timer_is_inert_witness :
  current_timer
    (after 60 10 (outage ++ [Recv; sec 30; Cycle up; SendAlert; Recv;
                             sec 40; Expire 0%nat]))
  <> Some 0%nat.
Proof.
  refine (proj1
    (C9_resolved_timer_is_inert false cmd_ok mail_ok (cfg 60 10) url tgt
       (after 60 10 (outage ++ [Recv; sec 30; Cycle up; SendAlert]))
       (after 60 10 (outage ++ [Recv; sec 30; Cycle up; SendAlert; Recv]))
       addr_status addr_status 0%nat []
       (mkTimer (T0 + 60 * Second) Armed) _ _ _ _ _
       [sec 40; Expire 0%nat]
       (after 60 10 (outage ++ [Recv; sec 30; Cycle up; SendAlert; Recv;
                                sec 40; Expire 0%nat])) _));
    by_compute.
Defined.

Lemma C1_timer_then_still_down_witness :
  exists s5,
    step_ 60 10 Recv
      (after 60 10 (outage ++ [Recv; sec 60; Expire 0%nat; TimerC;
                               sec 30; Cycle down; SendAlert])) = Some s5
    /\ deb s5 = Waiting.
Proof.
  pose proof (C1_timer_then_still_down false cmd_ok mail_ok (cfg 60 10) url tgt
                (after 60 10 outage)
                (after 60 10 (outage ++ [Recv]))
                (after 60 10 (outage ++ [Recv; sec 60; Expire 0%nat]))
                (after 60 10 (outage ++ [Recv; sec 60; Expire 0%nat; TimerC]))
                (after 60 10 (outage ++ [Recv; sec 60; Expire 0%nat; TimerC;
                                         sec 30; Cycle down; SendAlert]))
                [sec 60; Expire 0%nat] [sec 30; Cycle down; SendAlert]
                addr_status addr_status addr_status [] []) as H.
  assert (Hreach : reachable false cmd_ok mail_ok (cfg 60 10) url tgt
                     (after 60 10 outage))
    by (exists T0, outage; reflexivity).
  specialize (H Hreach).
  do 15 specialize (H ltac:(by_compute)).
  destruct H as (_ & _ & s5 & Hstep & Hd & _).
  exists s5. split; [exact Hstep | exact Hd].
Defined.

Lemma C3_copies_to_sink_pointer_to_debouncer_witness :
  res (after 60 10 [Cycle down; SendAlert; SendRes; Recv; sec 30; Cycle up]) !! 0%nat
  = Some (status (after 60 10 [Cycle down; SendAlert])).
Proof.
  pose proof (C3_copies_to_sink_pointer_to_debouncer false cmd_ok mail_ok
                (cfg 60 10) url tgt SendRes [Recv; sec 30; Cycle up]
                (after 60 10 [Cycle down; SendAlert])
                (after 60 10 [Cycle down; SendAlert; SendRes])
                (after 60 10 [Cycle down; SendAlert; SendRes; Recv; sec 30; Cycle up]))
    as H.
  do 2 specialize (H ltac:(by_compute)).
  destruct H as (_ & Hkept & _).
  apply Hkept. reflexivity.
Defined.

Lemma C4_Since_writers_witness :
  TargetStatus.Since (status (after 60 10 (outage ++ [Recv; sec 30; Cycle up])))
  = TargetStatus.Since (status (after 60 10 (outage ++ [Recv; sec 30])))
  /\ TargetStatus.Since (status (after 60 10 [sec 7; Cycle down]))
     = now (after 60 10 [sec 7]).
Proof.
  split.
  - pose proof (C4_Since_writers false cmd_ok mail_ok (cfg 60 10) url tgt (Cycle up)
                  (after 60 10 (outage ++ [Recv; sec 30]))
                  (after 60 10 (outage ++ [Recv; sec 30; Cycle up]))) as H.
    specialize (H ltac:(by_compute)).
    destruct H as (_ & Hup & _).
    apply (Hup up); by_compute.
  - pose proof (C4_Since_writers false cmd_ok mail_ok (cfg 60 10) url tgt (Cycle down)
                  (after 60 10 [sec 7])
                  (after 60 10 [sec 7; Cycle down])) as H.
    specialize (H ltac:(by_compute)).
    destruct H as (_ & _ & Hdown & _).
    apply (Hdown down); by_compute.
Defined.

(** ** Where the code departs from the claims *)

(** C1, counterexample: interval 30, standoff 31, as startup leaves them.
    The target goes down at [T0]; the timer is received from 31 seconds
    later and the offline status is dispatched. The cycle at 55 seconds
    finds the target still down and sends a request for the same outage
    ([Since] is still [T0]); it is only 55 seconds old, so it is not
    dispatched: it starts a second suppression cycle. *)
Lemma C1_counterexample_short_standoff :
  let s2 := after 31 10 (outage ++ [Recv; sec 25; Cycle down; SendAlert; SendRes;
                                    Recv; sec 6; Expire 0%nat]) in
  let s3 := after 31 10 (outage ++ [Recv; sec 25; Cycle down; SendAlert; SendRes;
                                    Recv; sec 6; Expire 0%nat; TimerC]) in
  let s4 := after 31 10 (outage ++ [Recv; sec 25; Cycle down; SendAlert; SendRes;
                                    Recv; sec 6; Expire 0%nat; TimerC;
                                    sec 24; Cycle down; SendAlert]) in
  let s5 := after 31 10 (outage ++ [Recv; sec 25; Cycle down; SendAlert; SendRes;
                                    Recv; sec 6; Expire 0%nat; TimerC;
                                    sec 24; Cycle down; SendAlert; Recv]) in
  runTarget_startup (fun _ => Some url) tgt (cfg 31 10)
    = Some (tgt, url, cfg 31 10)
  /\ deb s2 = Suppressing addr_status 0
  /\ step_ 31 10 TimerC s2 = Some s3
  /\ deb s3 = Waiting
  /\ map TargetStatus.Online (alerts s3) = [false]
  /\ run_ 31 10 [sec 24; Cycle down; SendAlert] s3 = Some s4
  /\ deb s4 = Waiting
  /\ alertRequest s4 = [addr_status]
  /\ TargetStatus.Online (deref s4 addr_status) = false
  /\ TargetStatus.Since (deref s4 addr_status) = TargetStatus.Since (status s2)
  /\ now s4 - TargetStatus.Since (deref s4 addr_status) = 55 * Second
  /\ step_ 31 10 Recv s4 = Some s5
  /\ alerts s5 = alerts s4
  /\ deb s5 = Suppressing addr_status 1.
Proof.
  cbv zeta. repeat (split; [by_compute|]). by_compute.
Qed.

(** C3, counterexample: while the debouncer holds the request of the outage
    as its pending one, the monitor's next cycle changes the value behind it
    (here [Online] and [LastCheck]); and the debouncer, receiving the
    recovery, itself writes [Since] of the monitor's status. *)
Lemma C3_counterexample_status_is_shared :
  let s1 := after 60 10 (outage ++ [Recv]) in
  let s2 := after 60 10 (outage ++ [Recv; sec 30; Cycle up]) in
  let s3 := after 60 10 (outage ++ [Recv; sec 30; Cycle up; SendAlert]) in
  let s4 := after 60 10 (outage ++ [Recv; sec 30; Cycle up; SendAlert; Recv]) in
  deb s1 = Suppressing addr_status 0
  /\ run_ 60 10 [sec 30; Cycle up] s1 = Some s2
  /\ deb s2 = Suppressing addr_status 0
  /\ TargetStatus.Online (deref s1 addr_status) = false
  /\ TargetStatus.Online (deref s2 addr_status) = true
  /\ deref s2 addr_status <> deref s1 addr_status
  /\ step_ 60 10 Recv s3 = Some s4
  /\ mon s4 = mon s3
  /\ status s4 <> status s3.
Proof.
  cbv zeta. repeat (split; [by_compute|]). by_compute.
Qed.

(** C4, counterexample: the target went down at [T0] and is back 30 seconds
    later; the monitor has set [Online] and left [Since] at [T0]. The
    debouncer then receives the recovery in SUPPRESSING: [Online] stays
    true in that step, and [Since] moves from the start of the outage to the
    clock. *)
Lemma C4_counterexample_debouncer_resets_Since :
  let s3 := after 60 10 (outage ++ [Recv; sec 30; Cycle up; SendAlert]) in
  let s4 := after 60 10 (outage ++ [Recv; sec 30; Cycle up; SendAlert; Recv]) in
  step_ 60 10 Recv s3 = Some s4
  /\ TargetStatus.Online (status s3) = true
  /\ TargetStatus.Online (status s4) = true
  /\ TargetStatus.Since (status s3) = T0
  /\ TargetStatus.Since (status s4) = T0 + 30 * Second
  /\ TargetStatus.Since (status s4) <> TargetStatus.Since (status s3).
Proof.
  cbv zeta. repeat (split; [by_compute|]). by_compute.
Qed.

(** * Further properties of the code *)

(** ** Startup and schedule *)

(** [CommandRun] returns an error exactly when the process cannot be
    started, and the error then carries the cause after a fixed prefix;
    what [cmd.Wait] returns has no influence. *)
Theorem CommandRun_error_iff_start_fails
    (exec_Command : list string -> Process) (command : string) (config : Config.t) :
  (forall err,
     cmd_Start (exec_Command ["/bin/bash"; "-c"; command]) = Some err ->
     CommandRun exec_Command command config
       = Some ("error run command, err " ++ err)%string)
  /\ (CommandRun exec_Command command config <> None
      <-> cmd_Start (exec_Command ["/bin/bash"; "-c"; command]) <> None)
  /\ (forall exec', 
        cmd_Start (exec' ["/bin/bash"; "-c"; command])
          = cmd_Start (exec_Command ["/bin/bash"; "-c"; command]) ->
        CommandRun exec' command config = CommandRun exec_Command command config).
Proof.
  unfold CommandRun. repeat split.
  - intros err ->. reflexivity.
  - destruct (cmd_Start _); congruence.
  - destruct (cmd_Start _); congruence.
  - intros exec' ->. reflexivity.
Qed.

(** Startup gives up exactly when [url.Parse] rejects the address; otherwise
    the interval it leaves is the larger of the configured one and 30, and
    nothing else of the target and nothing of the configuration but the
    standoff is changed. *)
Theorem startup_result (url_Parse : string -> option URL)
    (t : Target.t) (config : Config.t) :
  (runTarget_startup url_Parse t config = None
     <-> url_Parse (Target.Addr t) = None)
  /\ (forall t' u config',
        runTarget_startup url_Parse t config = Some (t', u, config') ->
        url_Parse (Target.Addr t) = Some u
        /\ Target.Interval t' = Z.max (Target.Interval t) 30
        /\ t' = Target.with_Interval (Target.Interval t') t
        /\ config' = Config.with_Standoff (Config.Standoff config') config).
Proof.
  destruct t as [id name addr host interval keyword command].
  destruct config as [timeout standoff alertcfg].
  unfold runTarget_startup, clampInterval, CheckInterval. cbn. split.
  - destruct (interval <? 30); cbn; destruct (url_Parse addr); split; congruence.
  - intros t' u config'.
    destruct (Z.ltb_spec interval 30); cbn;
      (destruct (url_Parse addr); [|discriminate]);
      intros [= <- <- <-]; cbn;
      (split; [reflexivity|]); (split; [lia|]); (split; [reflexivity|]);
      unfold adjustStandoff; cbn; break_if; reflexivity.
Qed.

(** After startup the standoff is never left at zero and, short of the
    overflow of [Interval + 1], is at least 31 seconds; it exceeds the
    interval in every case but one: a standoff left at zero with an interval
    of 60 seconds or more. *)
Theorem startup_Standoff (url_Parse : string -> option URL)
    (t t' : Target.t) (u : URL) (config config' : Config.t) :
  runTarget_startup url_Parse t config = Some (t', u, config') ->
  Target.Interval t < MaxInt64 ->
  31 <= Config.Standoff config'
  /\ (Target.Interval t' < Config.Standoff config'
      <-> ~ (Config.Standoff config = 0 /\ 60 <= Target.Interval t')).
Proof.
  unfold runTarget_startup.
  destruct (url_Parse (Target.Addr (clampInterval t))); [|discriminate].
  intros [= <- _ <-] Hmax.
  pose proof (clampInterval_min t) as Hmin. unfold CheckInterval in Hmin.
  assert (Hmax' : Target.Interval (clampInterval t) < MaxInt64).
  { unfold clampInterval, CheckInterval.
    destruct (Z.ltb_spec (Target.Interval t) 30); cbn; [unfold MaxInt64|]; lia. }
  unfold adjustStandoff, StandoffInterval.
  destruct (Z.eqb_spec (Config.Standoff config) 0) as [Hz|Hnz];
    cbn [Config.Standoff Config.with_Standoff].
  - split; [lia|]. split; intros H; [lia|].
    destruct (Z.lt_ge_cases (Target.Interval (clampInterval t)) 60); [lia|].
    exfalso. apply H. split; [exact Hz | lia].
  - destruct (Z.leb_spec (Config.Standoff config)
                (Target.Interval (clampInterval t)));
      cbn [Config.Standoff Config.with_Standoff].
    + rewrite wrap64_small by (unfold MinInt64, MaxInt64 in *; lia).
      split; [lia|]. split; [intros _ [Hz _]; contradiction | lia].
    + split; [lia|]. split; [intros _ [Hz _]; contradiction | lia].
Qed.

(** For the target startup leaves, [rand.Intn] is never called with a
    non-positive bound, whatever interval was configured: the jitter is
    defined. When the interval in seconds fits a [time.Duration] the jitter
    lies in [[0, Interval)] seconds and the ticker ticks every [Interval]
    seconds. *)
Theorem schedule_after_startup (draw : Z -> Z) (t : Target.t) :
  (forall n, 0 < n -> 0 <= draw n < n) ->
  runTarget_schedule draw (clampInterval t) <> None
  /\ (Target.Interval (clampInterval t) <= MaxSeconds ->
      exists jitter,
        runTarget_schedule draw (clampInterval t)
          = Some (jitter, Some (Target.Interval (clampInterval t) * Second))
        /\ 0 <= jitter < Target.Interval (clampInterval t) * Second).
Proof.
  intros Hdraw.
  pose proof (clampInterval_min t) as Hmin. unfold CheckInterval in Hmin.
  unfold runTarget_schedule, rand_Intn.
  destruct (Z.leb_spec (Target.Interval (clampInterval t)) 0); [lia|].
  split; [discriminate|]. intros Hfit.
  specialize (Hdraw (Target.Interval (clampInterval t)) ltac:(lia)).
  rewrite !seconds_exact by (unfold MaxSeconds in *; lia).
  unfold time_Tick.
  destruct (Z.leb_spec (Target.Interval (clampInterval t) * Second) 0);
    [unfold Second in *; lia|].
  eexists. split; [reflexivity|]. unfold Second. lia.
Qed.

(** ** Probing *)

Lemma has_prefix_spec (p s : string) :
  has_prefix p s = true <-> exists post, s = (p ++ post)%string.
Proof.
  revert s. induction p as [|a p IH]; intros s; cbn.
  - split; [intros _; exists s; reflexivity | reflexivity].
  - destruct s as [|b s]; [split; [discriminate | intros [post H]; discriminate]|].
    destruct (Ascii.eqb_spec a b) as [->|Hne].
    + rewrite IH. split; intros [post H]; exists post; congruence.
    + split; [discriminate|]. intros [post H]. congruence.
Qed.

Lemma keyword_missing_spec (keyword body : string) :
  keyword_missing keyword body = false <-> contains body keyword.
Proof.
  unfold contains. split.
  - induction body as [|c body IH]; cbn.
    + destruct (has_prefix keyword "") eqn:Hp; [|discriminate].
      intros _. apply has_prefix_spec in Hp as [post Hp].
      exists ""%string, post. exact Hp.
    + destruct (has_prefix keyword (String c body)) eqn:Hp.
      * intros _. apply has_prefix_spec in Hp as [post Hp].
        exists ""%string, post. exact Hp.
      * intros H. destruct (IH H) as (pre & post & ->).
        exists (String c pre), post. reflexivity.
  - intros (pre & post & ->). induction pre as [|c pre IH].
    + cbn [String.append].
      assert (Hp : has_prefix keyword (keyword ++ post) = true)
        by (apply has_prefix_spec; exists post; reflexivity).
      destruct (keyword ++ post)%string; cbn; rewrite Hp; reflexivity.
    + cbn. destruct (has_prefix keyword (String c (pre ++ keyword ++ post)));
        [reflexivity | exact IH].
Qed.

(** An HTTP(S) probe whose request and body read succeed fails exactly when
    a keyword is configured and does not occur in the body; with no keyword
    the body is not looked at. A healthy probe leaves the message empty. *)
Theorem poll_http_keyword (addrURL : URL) (t : Target.t) (w : Probe) (body : string) :
  Scheme addrURL = "http" \/ Scheme addrURL = "https" ->
  client_Do w = None ->
  ioutil_ReadAll w = inl body ->
  (fst (poll addrURL t w) = true
     <-> Target.Keyword t <> "" /\ ~ contains body (Target.Keyword t))
  /\ (fst (poll addrURL t w) = false -> snd (poll addrURL t w) = "").
Proof.
  intros Hs Hdo Hread. unfold poll.
  assert (Hsch : String.eqb (Scheme addrURL) "http"
                 || String.eqb (Scheme addrURL) "https" = true).
  { destruct Hs as [-> | ->]; reflexivity. }
  rewrite Hsch, Hdo, Hread.
  destruct (Target.Keyword t) as [|a k] eqn:Hk; cbn [is_empty negb andb].
  - cbn. split; [|reflexivity]. split; [discriminate | intros [H _]; congruence].
  - destruct (keyword_missing (String a k) body) eqn:Hm; cbn.
    + split; [|discriminate]. split; [|reflexivity]. intros _.
      split; [discriminate|]. intros Hc.
      apply keyword_missing_spec in Hc. congruence.
    + split; [|reflexivity]. split; [discriminate|].
      intros [_ Hn]. exfalso. apply Hn. apply keyword_missing_spec. exact Hm.
Qed.

(** Any scheme other than http, https and ping is probed by a TCP connect:
    the result is decided by [net.DialTimeout] alone. For every scheme but
    ping a healthy probe leaves the message empty, and a ping fails exactly
    when it reports no success, whatever error came with it. *)
Theorem poll_by_scheme (addrURL : URL) (t : Target.t) (w : Probe) :
  (Scheme addrURL <> "http" -> Scheme addrURL <> "https" ->
   Scheme addrURL <> "ping" ->
   poll addrURL t w =
     match net_DialTimeout w with
     | Some err => (true, err)
     | None => (false, "")
     end)
  /\ (Scheme addrURL <> "ping" ->
      fst (poll addrURL t w) = false -> snd (poll addrURL t w) = "")
  /\ (Scheme addrURL = "ping" -> fst (poll addrURL t w) = negb (fst (Ping w))).
Proof.
  unfold poll.
  destruct (String.eqb_spec (Scheme addrURL) "http") as [Hh|Hh];
    destruct (String.eqb_spec (Scheme addrURL) "https") as [Hs|Hs];
    destruct (String.eqb_spec (Scheme addrURL) "ping") as [Hp|Hp];
    cbn [orb]; try congruence.
  all: repeat split; try congruence; intros.
  all: try (destruct (client_Do w); [discriminate|];
            destruct (ioutil_ReadAll w); [|discriminate];
            destruct (_ && _); [discriminate | reflexivity]).
  - destruct (Ping w) as [success err]. reflexivity.
  - destruct (net_DialTimeout w); [discriminate | reflexivity].
Qed.

(** ** Runs of the monitor and the debouncer *)

Section Runs.

Variable debug : bool.
Variable Commandrun : Z -> string -> Config.t -> option string.
Variable EmailAlert : Z -> TargetStatus.t -> Config.t -> option string.
Variable config : Config.t.
Variable addrURL : URL.
Variable t : Target.t.

Local Abbreviation alert' := (alert debug Commandrun EmailAlert).
Local Abbreviation recv' := (alertRoutine_recv debug Commandrun EmailAlert config).
Local Abbreviation step' := (step debug Commandrun EmailAlert config addrURL t).
Local Abbreviation run' := (run debug Commandrun EmailAlert config addrURL t).
Local Abbreviation reachable' := (reachable debug Commandrun EmailAlert config addrURL t).

(** *** One polling cycle *)

Lemma cycle_fields (w : Probe) (now0 : Z) (st : TargetStatus.t) :
  let failed := fst (poll addrURL t w) in
  let st' := fst (runTarget_cycle config addrURL t w now0 st) in
  let emit := snd (runTarget_cycle config addrURL t w now0 st) in
  TargetStatus.Online st' = negb failed
  /\ TargetStatus.LastCheck st' = now0
  /\ TargetStatus.ErrorMsg st' = snd (poll addrURL t w)
  /\ TargetStatus.LastAlert st' = TargetStatus.LastAlert st
  /\ (TargetStatus.Online st' <> TargetStatus.Online st -> emit = true)
  /\ (TargetStatus.Online st = true -> failed = false ->
      emit = false /\ TargetStatus.Since st' = TargetStatus.Since st)
  /\ (emit = true -> failed = true \/ TargetStatus.Online st = false).
Proof.
  cbv zeta. unfold runTarget_cycle.
  destruct (poll addrURL t w) as [failed msg]. cbn [fst snd].
  destruct failed, (TargetStatus.Online st) eqn:Hon; cbn; rewrite ?Hon; cbn;
    break_if; cbn; repeat split; auto; try congruence.
Qed.

(** After a cycle [Online] is the opposite of the cycle's [failed], and
    [LastCheck] and [ErrorMsg] are those of the cycle. Every change of
    [Online] sends an alert request, a healthy cycle of an online target
    sends none and leaves [Since] alone, and no cycle touches
    [LastAlert]. *)
Theorem cycle_reports_every_edge (w : Probe) (now0 : Z) (st : TargetStatus.t) :
  let failed := fst (poll addrURL t w) in
  let st' := fst (runTarget_cycle config addrURL t w now0 st) in
  let emit := snd (runTarget_cycle config addrURL t w now0 st) in
  TargetStatus.Online st' = negb failed
  /\ TargetStatus.LastCheck st' = now0
  /\ TargetStatus.ErrorMsg st' = snd (poll addrURL t w)
  /\ TargetStatus.LastAlert st' = TargetStatus.LastAlert st
  /\ (TargetStatus.Online st' <> TargetStatus.Online st -> emit = true)
  /\ (TargetStatus.Online st = true -> failed = false ->
      emit = false /\ TargetStatus.Since st' = TargetStatus.Since st)
  /\ (emit = true -> failed = true \/ TargetStatus.Online st = false).
Proof. exact (cycle_fields w now0 st). Qed.

(** *** What a step does to the monitor, the channel and the sink *)

Lemma step_monitor (l : Label) (s s' : Sys) :
  step' l s = Some s' ->
  match l with
  | Cycle _ =>
      mon s = AtLoop /\ mon s' <> AtLoop
      /\ res s' = res s /\ alertRequest s' = alertRequest s
  | SendAlert =>
      mon s = AtSendAlert /\ mon s' = AtSendRes /\ res s' = res s
      /\ alertRequest s = [] /\ alertRequest s' = [addr_status]
  | SendRes =>
      mon s = AtSendRes /\ mon s' = AtLoop
      /\ res s' = res s ++ [status s] /\ alertRequest s' = alertRequest s
  | Recv =>
      mon s' = mon s /\ res s' = res s
      /\ exists req, alertRequest s = req :: alertRequest s'
  | Elapse _ | TimerC | Expire _ =>
      mon s' = mon s /\ res s' = res s /\ alertRequest s' = alertRequest s
  end.
Proof.
  destruct l; cbn.
  - destruct (0 <=? d); [|discriminate]. intros [= <-]. auto.
  - destruct (mon s); try discriminate.
    destruct (runTarget_cycle _ _ _ _ _ _) as [st' emit]. intros [= <-].
    cbn. destruct emit; repeat split; discriminate.
  - destruct (mon s), (alertRequest s); try discriminate. intros [= <-]. auto.
  - destruct (mon s); try discriminate. intros [= <-]. auto.
  - destruct (alertRequest s) as [|req rest]; [discriminate|]. intros [= <-].
    destruct (recv_frame debug Commandrun EmailAlert config req
                (set_alertRequest rest s)) as (_ & Hc & Hm & Hr).
    rewrite Hc, Hm, Hr. cbn. repeat split. exists req. reflexivity.
  - unfold alertRoutine_timer. destruct (deb s) as [|req k]; [discriminate|].
    destruct (timers s !! k) as [[dl []]|]; try discriminate.
    intros [= <-]. destruct req. cbn. auto.
  - destruct (timers s !! k) as [[dl []]|]; try discriminate.
    destruct (dl <=? now s); [|discriminate]. intros [= <-]. auto.
Qed.

Lemma count_cons (f : Label -> bool) (l : Label) (tr : list Label) :
  count f (l :: tr) = ((if f l then 1 else 0) + count f tr)%nat.
Proof. unfold count. cbn. destruct (f l); reflexivity. Qed.

Lemma run_channel (tr : list Label) (s s' : Sys) :
  run' tr s = Some s' ->
  (length (alertRequest s) <= 1)%nat ->
  (length (alertRequest s') <= 1)%nat
  /\ (count is_SendAlert tr + length (alertRequest s)
      = count is_Recv tr + length (alertRequest s'))%nat.
Proof.
  revert s. induction tr as [|l tr IH]; intros s; cbn [run].
  - intros [= <-] H. split; [exact H | reflexivity].
  - destruct (step' l s) as [s1|] eqn:Hstep; [|discriminate].
    intros Hrun Hcap. pose proof (step_monitor l s s1 Hstep) as Hm.
    rewrite !count_cons.
    assert (Hcap1 : (length (alertRequest s1) <= 1)%nat
                    /\ ((if is_SendAlert l then 1 else 0) + length (alertRequest s)
                        = (if is_Recv l then 1 else 0) + length (alertRequest s1))%nat).
    { destruct l; cbn [is_SendAlert is_Recv].
      - destruct Hm as (_ & _ & ->). auto.
      - destruct Hm as (_ & _ & _ & ->). auto.
      - destruct Hm as (_ & _ & _ & -> & ->). cbn. auto.
      - destruct Hm as (_ & _ & _ & ->). auto.
      - destruct Hm as (_ & _ & req & Hreq). rewrite Hreq in *. cbn in *. lia.
      - destruct Hm as (_ & _ & ->). auto.
      - destruct Hm as (_ & _ & ->). auto. }
    destruct Hcap1 as [Hc1 Heq1].
    destruct (IH s1 Hrun Hc1) as [Hc' Heq']. split; [exact Hc'|]. lia.
Qed.

(** In every run the channel holds at most one request, and the requests
    the monitor has sent are exactly those the debouncer has received plus
    the one that may still sit in the channel: none is lost and none is
    delivered twice. *)
Theorem alert_requests_conserved (now0 : Z) (tr : list Label) (s : Sys) :
  run' tr (init t now0) = Some s ->
  (length (alertRequest s) <= 1)%nat
  /\ count is_SendAlert tr = (count is_Recv tr + length (alertRequest s))%nat.
Proof.
  intros Hrun.
  destruct (run_channel tr (init t now0) s Hrun) as [Hcap Heq]; [cbn; lia|].
  split; [exact Hcap|]. cbn in Heq. lia.
Qed.

Lemma run_snapshots (tr : list Label) (s s' : Sys) :
  run' tr s = Some s' ->
  (count is_Cycle tr + length (res s) + in_cycle s
   = length (res s') + in_cycle s')%nat.
Proof.
  revert s. induction tr as [|l tr IH]; intros s; cbn [run].
  - intros [= <-]. unfold count. cbn. lia.
  - destruct (step' l s) as [s1|] eqn:Hstep; [|discriminate].
    intros Hrun. pose proof (step_monitor l s s1 Hstep) as Hm.
    specialize (IH s1 Hrun). rewrite count_cons.
    assert (((if is_Cycle l then 1 else 0) + length (res s) + in_cycle s
             = length (res s1) + in_cycle s1)%nat).
    { unfold in_cycle. destruct l; cbn [is_Cycle].
      - destruct Hm as (-> & -> & _). lia.
      - destruct Hm as (-> & Hne & -> & _). destruct (mon s1); [contradiction|lia|lia].
      - destruct Hm as (-> & -> & -> & _). lia.
      - destruct Hm as (-> & -> & -> & _). rewrite length_app. cbn. lia.
      - destruct Hm as (-> & -> & _). lia.
      - destruct Hm as (-> & -> & _). lia.
      - destruct Hm as (-> & -> & _). lia. }
    lia.
Qed.

(** Every pass of the polling loop hands exactly one snapshot to the sink,
    whether or not it sent an alert request: in any run the snapshots sent
    are as many as the passes begun, less the one still under way. *)
Theorem one_snapshot_per_cycle (now0 : Z) (tr : list Label) (s : Sys) :
  run' tr (init t now0) = Some s ->
  count is_Cycle tr = (length (res s) + in_cycle s)%nat.
Proof.
  intros Hrun. pose proof (run_snapshots tr (init t now0) s Hrun) as H.
  cbn in H. lia.
Qed.

(** *** Dispatch *)

Lemma logged_errors_app (l1 l2 : list Effect) :
  logged_errors (l1 ++ l2) = logged_errors l1 ++ logged_errors l2.
Proof. unfold logged_errors. apply flat_map_app. Qed.

Lemma logged_errors_log_err (r : option string) :
  logged_errors (log_err r) = error_list r.
Proof. destruct r; reflexivity. Qed.

(** [alert] tries the mail transport whether or not the command transport
    failed, and writes to the log exactly the errors the transports it
    called returned, the command's first. *)
Theorem alert_logs_each_failure (now0 : Z) (st : TargetStatus.t) :
  let command := Target.Commandrun (TargetStatus.Target st) in
  logged_errors (snd (alert' now0 st config)) =
    (if is_empty command then []
     else error_list (Commandrun now0 command config))
    ++ (if is_empty (Alert.ToEmail (Config.Alert config)) then []
        else error_list (EmailAlert now0 st config)).
Proof.
  cbv zeta. unfold alert. cbn [snd]. rewrite logged_errors_app. f_equal.
  - destruct (is_empty (Target.Commandrun (TargetStatus.Target st))); cbn [negb].
    + destruct debug; reflexivity.
    + change (Ran ?c :: ?l) with ([Ran c] ++ l).
      rewrite !logged_errors_app, logged_errors_log_err. cbn. apply app_nil_r.
  - destruct (is_empty (Alert.ToEmail (Config.Alert config))); cbn [negb].
    + destruct debug; reflexivity.
    + change (Mailed ?c :: ?l) with ([Mailed c] ++ l).
      rewrite !logged_errors_app, logged_errors_log_err. cbn. apply app_nil_r.
Qed.

Lemma recv_dispatch (req : Ptr) (s : Sys) :
  (alerts (recv' req s) = alerts s
   /\ TargetStatus.LastAlert (status (recv' req s))
      = TargetStatus.LastAlert (status s)
   /\ deliveries (effects (recv' req s)) = deliveries (effects s))
  \/ (alerts (recv' req s) = alerts s ++ [status s]
      /\ TargetStatus.LastAlert (status (recv' req s)) = now s
      /\ deliveries (effects (recv' req s))
         = deliveries (effects s)
           ++ deliveries (snd (alert' (now s) (status s) config))).
Proof.
  unfold alertRoutine_recv, call_alert, time_NewTimer, store, deref.
  destruct req; destruct (deb s) eqn:Hd; cbn.
  - destruct (_ || _); cbn.
    + right. rewrite deliveries_app. auto.
    + left. auto.
  - destruct (TargetStatus.Online (status s)); [|left; auto].
    destruct (_ <? _); cbn.
    + right. rewrite deliveries_app. auto.
    + left. destruct debug; cbn; rewrite ?deliveries_app; cbn;
        rewrite ?app_nil_r; auto.
Qed.

Lemma step_dispatch (l : Label) (s s' : Sys) :
  step' l s = Some s' ->
  (alerts s' = alerts s
   /\ TargetStatus.LastAlert (status s') = TargetStatus.LastAlert (status s)
   /\ deliveries (effects s') = deliveries (effects s))
  \/ ((l = Recv \/ l = TimerC)
      /\ alerts s' = alerts s ++ [status s]
      /\ TargetStatus.LastAlert (status s') = now s
      /\ deliveries (effects s')
         = deliveries (effects s)
           ++ deliveries (snd (alert' (now s) (status s) config))).
Proof.
  destruct l; cbn.
  - destruct (0 <=? d); [|discriminate]. intros [= <-]. left. auto.
  - destruct (mon s); try discriminate.
    pose proof (cycle_Since config addrURL t w (now s) (status s)) as Hc.
    destruct (runTarget_cycle _ _ _ _ _ _) as [st' emit]. cbn in Hc.
    intros [= <-]. left. cbn. tauto.
  - destruct (mon s), (alertRequest s); try discriminate.
    intros [= <-]. left. auto.
  - destruct (mon s); try discriminate. intros [= <-]. left. auto.
  - destruct (alertRequest s) as [|req rest]; [discriminate|]. intros [= <-].
    destruct (recv_dispatch req (set_alertRequest rest s)) as [H|H]; cbn in H.
    + left. exact H.
    + right. split; [auto | exact H].
  - unfold alertRoutine_timer. destruct (deb s) as [|req k]; [discriminate|].
    destruct (timers s !! k) as [[dl []]|]; try discriminate.
    intros [= <-]. destruct req. right. cbn.
    rewrite deliveries_app. auto.
  - destruct (timers s !! k) as [[dl []]|]; try discriminate.
    destruct (dl <=? now s); [|discriminate]. intros [= <-]. left. auto.
Qed.

(** [LastAlert] moves only with a dispatch. A step either dispatches
    nothing, hands nothing to a transport and leaves [LastAlert] as it was,
    or it is a step of the debouncer that dispatches the status as it is at
    that moment, once, and sets [LastAlert] to the clock. *)
Theorem LastAlert_moves_only_with_dispatch (l : Label) (s s' : Sys) :
  step' l s = Some s' ->
  (alerts s' = alerts s
   /\ TargetStatus.LastAlert (status s') = TargetStatus.LastAlert (status s)
   /\ deliveries (effects s') = deliveries (effects s))
  \/ ((l = Recv \/ l = TimerC)
      /\ alerts s' = alerts s ++ [status s]
      /\ TargetStatus.LastAlert (status s') = now s
      /\ deliveries (effects s')
         = deliveries (effects s)
           ++ deliveries (snd (alert' (now s) (status s) config))).
Proof. exact (step_dispatch l s s'). Qed.

(** *** The suppression cycle *)

(** While the debouncer is in SUPPRESSING a step either leaves it there,
    with the same pending request and the same timer, dispatching nothing
    and changing no field of the status it does not own, or it ends the
    cycle: then it is the receive of a request that reads online or the
    receive from the timer, and no new timer is created. A request that
    reads offline is consumed and changes nothing else. *)
Theorem suppression_holds_until_resolved
    (l : Label) (s s' : Sys) (pending : Ptr) (k : nat) :
  deb s = Suppressing pending k ->
  step' l s = Some s' ->
  (deb s' = Suppressing pending k
   /\ alerts s' = alerts s
   /\ length (timers s') = length (timers s)
   /\ (forall tm, timers s !! k = Some tm ->
         exists tm', timers s' !! k = Some tm' /\ deadline tm' = deadline tm)
   /\ (l = Recv -> TargetStatus.Online (status s) = false
                   /\ s' = set_alertRequest (tail (alertRequest s)) s))
  \/ (deb s' = Waiting
      /\ length (timers s') = length (timers s)
      /\ ((l = Recv /\ TargetStatus.Online (status s) = true)
          \/ (l = TimerC
              /\ exists dl, timers s !! k = Some (mkTimer dl Ready)))).
Proof.
  intros Hd Hstep.
  assert (Hkept : forall tm, timers s !! k = Some tm ->
            exists tm', timers s' !! k = Some tm' /\ deadline tm' = deadline tm).
  { intros tm Hk.
    destruct (step_timer_kept debug Commandrun EmailAlert config addrURL t
                l s s' k tm Hstep Hk) as (tm' & H1 & H2 & _).
    exists tm'. auto. }
  destruct l; cbn in Hstep.
  - destruct (0 <=? d); [|discriminate]. injection Hstep as <-.
    left. cbn. repeat split; auto; discriminate.
  - destruct (mon s); try discriminate.
    destruct (runTarget_cycle _ _ _ _ _ _) as [st' emit]. injection Hstep as <-.
    left. cbn. repeat split; auto; discriminate.
  - destruct (mon s), (alertRequest s); try discriminate. injection Hstep as <-.
    left. cbn. repeat split; auto; discriminate.
  - destruct (mon s); try discriminate. injection Hstep as <-.
    left. cbn. repeat split; auto; discriminate.
  - destruct (alertRequest s) as [|req rest] eqn:Hch; [discriminate|].
    injection Hstep as Hs'.
    set (s0 := set_alertRequest rest s) in *.
    assert (Hd0 : deb s0 = Suppressing pending k) by exact Hd.
    destruct (TargetStatus.Online (status s)) eqn:Hon.
    + right.
      assert (Hon0 : TargetStatus.Online (deref s0 req) = true)
        by (destruct req; exact Hon).
      destruct (recv_recovery_resolves debug Commandrun EmailAlert config
                  req pending k s0 Hd0 Hon0) as (Hw & Ht & _).
      rewrite <- Hs'. rewrite Hw, Ht. auto.
    + left.
      assert (Hoff0 : TargetStatus.Online (deref s0 req) = false)
        by (destruct req; exact Hon).
      rewrite (recv_suppressing_offline debug Commandrun EmailAlert config
                 req pending k s0 Hd0 Hoff0) in Hs'.
      subst s'. cbn. repeat split; auto.
  - unfold alertRoutine_timer in Hstep. rewrite Hd in Hstep.
    destruct (timers s !! k) as [[dl []]|] eqn:Hk; try discriminate.
    injection Hstep as <-. right. destruct pending. cbn.
    rewrite length_insert. repeat split. right. split; [reflexivity|].
    exists dl. reflexivity.
  - destruct (timers s !! k0) as [[dl []]|]; try discriminate.
    destruct (dl <=? now s); [|discriminate]. injection Hstep as <-.
    left. cbn. rewrite length_insert. repeat split; auto; discriminate.
Qed.

(** The withheld request is never dispatched by the timer before the
    standoff has run: in any run, the receive from the timer of a cycle
    comes at least [Standoff] seconds after the receive that began the
    cycle. *)
Theorem timer_dispatch_not_before_standoff
    (s0 s1 s2 s3 : Sys) (tr : list Label)
    (req0 pending : Ptr) (rest0 : list Ptr) :
  reachable' s0 ->
  deb s0 = Waiting ->
  alertRequest s0 = req0 :: rest0 ->
  step' Recv s0 = Some s1 ->
  deb s1 = Suppressing req0 (length (timers s0)) ->
  run' tr s1 = Some s2 ->
  deb s2 = Suppressing pending (length (timers s0)) ->
  step' TimerC s2 = Some s3 ->
  - MaxSeconds <= Config.Standoff config <= MaxSeconds ->
  now s0 + Config.Standoff config * Second <= now s2
  /\ alerts s3 = alerts s2 ++ [status s2]
  /\ TargetStatus.LastAlert (status s3) = now s2.
Proof.
  intros Hreach Hd0 Hch0 Hstep0 Hd1 Hrun Hd2 Hfire Hrange.
  pose proof (reachable_Inv debug Commandrun EmailAlert config addrURL t
                s0 Hreach) as Hinv.
  assert (Hk1 : timers s1 !! length (timers s0)
                = Some (mkTimer (now s0 + Config.Standoff config * Second) Armed)).
  { cbn in Hstep0. rewrite Hch0 in Hstep0. injection Hstep0 as <-.
    set (s00 := set_alertRequest rest0 s0) in *.
    assert (Hd00 : deb s00 = Waiting) by exact Hd0.
    destruct (TargetStatus.Online (deref s00 req0)
              || (60 * Second <? now s00 - TargetStatus.Since (deref s00 req0)))
      eqn:Hc.
    - rewrite (recv_waiting_dispatch debug Commandrun EmailAlert config
                 req0 s00 Hd00 Hc) in Hd1.
      destruct (call_alert_fields debug Commandrun EmailAlert config req0 s00)
        as (_ & _ & _ & Hdb & _).
      rewrite Hdb in Hd1. cbn in Hd1. congruence.
    - rewrite (recv_waiting_suppress debug Commandrun EmailAlert config
                 req0 s00 Hd00 Hc).
      cbn. rewrite (seconds_exact _ Hrange).
      apply lookup_snoc_Some. right. auto. }
  destruct (run_timer_kept debug Commandrun EmailAlert config addrURL t
              tr s1 s2 _ _ Hrun Hk1) as (tm2 & Hk2 & Hdl2).
  pose proof (run_Inv debug Commandrun EmailAlert config addrURL t tr s1 s2 Hrun
                (step_Inv debug Commandrun EmailAlert config addrURL t
                   Recv s0 s1 Hstep0 Hinv)) as (_ & _ & Hdue2).
  destruct (timerC_dispatches debug Commandrun EmailAlert config addrURL t
              s2 s3 pending _ Hd2 Hfire) as (_ & Hal & Hst & dl & Hready).
  rewrite Hk2 in Hready. injection Hready as ->.
  split.
  - cbn in Hdl2. rewrite <- Hdl2. apply (Hdue2 _ _ Hk2). cbn. discriminate.
  - destruct pending. rewrite Hal, Hst. auto.
Qed.

(** *** Invariants of every run *)

Lemma step_LastCheck (l : Label) (s s' : Sys) :
  step' l s = Some s' ->
  TargetStatus.LastCheck (status s') = TargetStatus.LastCheck (status s)
  \/ TargetStatus.LastCheck (status s') = now s'.
Proof.
  intros Hstep.
  pose proof (step_status debug Commandrun EmailAlert config addrURL t
                l s s' Hstep) as Hw.
  destruct l; cbn in Hw; try (left; congruence); try (left; tauto).
  cbn in Hstep. destruct (mon s); try discriminate.
  pose proof (cycle_fields w (now s) (status s)) as Hc.
  cbv zeta in Hc.
  destruct (runTarget_cycle _ _ _ _ _ _) as [st' emit]. cbn in Hc.
  injection Hstep as <-. right. cbn. tauto.
Qed.

Lemma run_stamps (b : Z) (tr : list Label) (s s' : Sys) :
  run' tr s = Some s' ->
  b <= TargetStatus.Since (status s) <= now s ->
  TargetStatus.LastCheck (status s) <= now s ->
  TargetStatus.LastAlert (status s) <= now s ->
  now s <= now s'
  /\ b <= TargetStatus.Since (status s') <= now s'
  /\ TargetStatus.LastCheck (status s') <= now s'
  /\ TargetStatus.LastAlert (status s') <= now s'.
Proof.
  revert s. induction tr as [|l tr IH]; intros s; cbn [run].
  - intros [= <-]. intros. repeat split; lia.
  - destruct (step' l s) as [s1|] eqn:Hstep; [|discriminate].
    intros Hrun HS HC HA.
    pose proof (step_now debug Commandrun EmailAlert config addrURL t
                  l s s1 Hstep) as Hn.
    pose proof (step_Since debug Commandrun EmailAlert config addrURL t
                  l s s1 Hstep) as HS1.
    pose proof (step_LastCheck l s s1 Hstep) as HC1.
    pose proof (step_dispatch l s s1 Hstep) as HA1.
    destruct (IH s1 Hrun) as (Hn' & HS' & HC' & HA').
    + destruct HS1 as [-> | ->]; lia.
    + destruct HC1 as [-> | ->]; lia.
    + destruct HA1 as [(_ & -> & _)|(_ & _ & -> & _)]; lia.
    + repeat split; lia.
Qed.

(** In every run the time stamps of the status lie in the past: [Since]
    between the entry into the loop and the clock, [LastCheck] and
    [LastAlert] not after the clock; and the clock never runs backwards. *)
Theorem timestamps_in_the_past (now0 : Z) (tr : list Label) (s : Sys) :
  0 <= now0 ->
  run' tr (init t now0) = Some s ->
  now0 <= now s
  /\ now0 <= TargetStatus.Since (status s) <= now s
  /\ TargetStatus.LastCheck (status s) <= now s
  /\ TargetStatus.LastAlert (status s) <= now s.
Proof.
  intros H0 Hrun.
  apply (run_stamps now0 tr (init t now0) s Hrun); cbn; lia.
Qed.

Lemma step_unread (l : Label) (s s' : Sys) :
  step' l s = Some s' -> running_timer_unread s -> running_timer_unread s'.
Proof.
  intros Hstep Hun k tm' Hc Hk.
  destruct (step_timers debug Commandrun EmailAlert config addrURL t l s s' Hstep)
    as [Ht [Hc'|Hc']|dl _ Ht Hc'|j dl Hj _ Ht Hc'|j dl _ _ Ht Hc'];
    rewrite Ht in Hk; rewrite Hc' in Hc.
  - exact (Hun k tm' Hc Hk).
  - discriminate.
  - injection Hc as <-. apply lookup_snoc_Some in Hk as [[Hlt _]|[_ <-]].
    + lia.
    + cbn. discriminate.
  - apply list_lookup_insert_Some in Hk as [(_ & <- & _)|[_ Hk]].
    + cbn. discriminate.
    + exact (Hun k tm' Hc Hk).
  - discriminate.
Qed.

Lemma run_unread (tr : list Label) (s s' : Sys) :
  run' tr s = Some s' -> running_timer_unread s -> running_timer_unread s'.
Proof.
  revert s. induction tr as [|l tr IH]; intros s; cbn [run].
  - intros [= <-]. auto.
  - destruct (step' l s) as [s1|] eqn:Hstep; [|discriminate].
    intros Hrun Hun. exact (IH s1 Hrun (step_unread l s s1 Hstep Hun)).
Qed.

(** In every run, while the debouncer is in SUPPRESSING its timer is the
    one created last, it has not been received from, and if it is ready it
    was due; so all timers but the last belong to cycles that are over. *)
Theorem running_timer_is_the_newest (s : Sys) (pending : Ptr) (k : nat) :
  reachable' s ->
  deb s = Suppressing pending k ->
  S k = length (timers s)
  /\ exists dl st,
       timers s !! k = Some (mkTimer dl st)
       /\ st <> Drained
       /\ (st = Ready -> dl <= now s)
       /\ forall j, (j < k)%nat -> abandoned s j.
Proof.
  intros Hreach Hd.
  destruct (reachable_Inv debug Commandrun EmailAlert config addrURL t s Hreach)
    as (Hnew & _ & Hdue).
  assert (Hc : current_timer s = Some k) by (unfold current_timer; rewrite Hd; reflexivity).
  specialize (Hnew k Hc). split; [exact Hnew|].
  destruct (timers s !! k) as [[dl st]|] eqn:Hk.
  - exists dl, st. split; [reflexivity|].
    destruct Hreach as (now0 & tr & Hrun).
    assert (Hun : running_timer_unread s).
    { apply (run_unread tr (init t now0) s Hrun). intros j tm Hj. discriminate Hj. }
    split; [exact (Hun k _ Hc Hk)|]. split.
    + intros ->. apply (Hdue k _ Hk). cbn. discriminate.
    + intros j Hj. split; [lia|]. rewrite Hc. intros [= ->]. lia.
  - apply lookup_ge_None in Hk. lia.
Qed.

Lemma run_no_dispatch_yet (tr : list Label) (s s' : Sys) :
  run' tr s = Some s' ->
  alerts s' = [] ->
  alerts s = []
  /\ TargetStatus.LastAlert (status s') = TargetStatus.LastAlert (status s).
Proof.
  revert s. induction tr as [|l tr IH]; intros s; cbn [run].
  - intros [= <-]. auto.
  - destruct (step' l s) as [s1|] eqn:Hstep; [|discriminate].
    intros Hrun Hnil. destruct (IH s1 Hrun Hnil) as [Hnil1 Heq].
    destruct (step_dispatch l s s1 Hstep) as [(Hal & Hla & _)|(_ & Hal & _)].
    + split; congruence.
    + rewrite Hnil1 in Hal. destruct (alerts s); discriminate.
Qed.

(** Until the first dispatch [LastAlert] keeps its zero value, so the
    re-notify interval holds nothing back: every cycle that finds the
    offline target still failed sends an alert request (the clock, counted
    from the zero time, being past the interval). *)
Theorem still_down_requests_until_first_dispatch
    (now0 : Z) (tr : list Label) (s : Sys) (w : Probe) :
  run' tr (init t now0) = Some s ->
  alerts s = [] ->
  mon s = AtLoop ->
  TargetStatus.Online (status s) = false ->
  fst (poll addrURL t w) = true ->
  - MaxSeconds <= Alert.Interval (Config.Alert config) <= MaxSeconds ->
  Alert.Interval (Config.Alert config) * Second < now s ->
  TargetStatus.LastAlert (status s) = 0
  /\ exists s', step' (Cycle w) s = Some s' /\ mon s' = AtSendAlert.
Proof.
  intros Hrun Hnil Hmon Hoff Hfail Hrange Hnow.
  destruct (run_no_dispatch_yet tr (init t now0) s Hrun Hnil) as [_ Hla].
  cbn in Hla. split; [exact Hla|].
  destruct (poll addrURL t w) as [failed msg] eqn:Hp. cbn in Hfail. subst failed.
  pose proof (runTarget_cycle_still_down config addrURL t w (now s) (status s)
                msg Hp Hoff) as Hc.
  rewrite (seconds_lt_Since _ _ _ Hrange), Hla in Hc.
  assert (Hlt : (Alert.Interval (Config.Alert config) * Second <? now s - 0) = true)
    by (apply Z.ltb_lt; lia).
  rewrite Hlt in Hc. cbn. rewrite Hmon, Hc.
  eexists. split; reflexivity.
Qed.

End Runs.

(** ** The further properties, at the scenarios *)

Lemma startup_Standoff_witness :
  31 <= Config.Standoff (adjustStandoff (clampInterval tgt) (cfg 10 300)).
Proof.
  pose proof (startup_Standoff (fun _ => Some url) tgt
                (clampInterval tgt) url (cfg 10 300)
                (adjustStandoff (clampInterval tgt) (cfg 10 300))) as H.
  do 2 specialize (H ltac:(by_compute)).
  exact (proj1 H).
Defined.

Lemma schedule_after_startup_witness :
  runTarget_schedule (fun n => n - 1) (clampInterval tgt) <> None.
Proof.
  pose proof (schedule_after_startup (fun n => n - 1) tgt) as H.
  assert (Hdraw : forall n : Z, 0 < n -> 0 <= n - 1 < n) by (intros n Hn; lia).
  exact (proj1 (H Hdraw)).
Defined.

Lemma poll_http_keyword_witness :
  fst (poll (mkURL "http" "example.org")
         (Target.mk 2 "site" "http://example.org" "" 30 "ready" "")
         (mkProbe None (inl "not yet") (false, None) None)) = true.
Proof.
  pose proof (poll_http_keyword (mkURL "http" "example.org")
                (Target.mk 2 "site" "http://example.org" "" 30 "ready" "")
                (mkProbe None (inl "not yet") (false, None) None) "not yet") as H.
  specialize (H ltac:(left; reflexivity)).
  do 2 specialize (H ltac:(reflexivity)).
  apply (proj1 H). split; [discriminate|].
  intros Hc. apply keyword_missing_spec in Hc. discriminate Hc.
Defined.

Lemma alert_requests_conserved_witness :
  count is_SendAlert (outage ++ [Recv; sec 30; Cycle down; SendAlert])
  = (count is_Recv (outage ++ [Recv; sec 30; Cycle down; SendAlert])
     + length (alertRequest
                 (after 60 10 (outage ++ [Recv; sec 30; Cycle down; SendAlert]))))%nat.
Proof.
  pose proof (alert_requests_conserved false cmd_ok mail_ok (cfg 60 10) url tgt T0
                (outage ++ [Recv; sec 30; Cycle down; SendAlert])
                (after 60 10 (outage ++ [Recv; sec 30; Cycle down; SendAlert]))) as H.
  specialize (H ltac:(by_compute)).
  exact (proj2 H).
Defined.

Lemma one_snapshot_per_cycle_witness :
  count is_Cycle (outage ++ [Recv; sec 30; Cycle down; SendAlert])
  = (length (res (after 60 10 (outage ++ [Recv; sec 30; Cycle down; SendAlert])))
     + in_cycle (after 60 10 (outage ++ [Recv; sec 30; Cycle down; SendAlert])))%nat.
Proof.
  pose proof (one_snapshot_per_cycle false cmd_ok mail_ok (cfg 60 10) url tgt T0
                (outage ++ [Recv; sec 30; Cycle down; SendAlert])
                (after 60 10 (outage ++ [Recv; sec 30; Cycle down; SendAlert]))) as H.
  exact (H ltac:(by_compute)).
Defined.

Lemma LastAlert_moves_only_with_dispatch_witness :
  TargetStatus.LastAlert
    (status (after 60 10 (outage ++ [Recv; sec 30; Cycle down; SendAlert; Recv])))
  = TargetStatus.LastAlert
      (status (after 60 10 (outage ++ [Recv; sec 30; Cycle down; SendAlert]))).
Proof.
  pose proof (LastAlert_moves_only_with_dispatch false cmd_ok mail_ok (cfg 60 10)
                url tgt Recv
                (after 60 10 (outage ++ [Recv; sec 30; Cycle down; SendAlert]))
                (after 60 10 (outage ++ [Recv; sec 30; Cycle down; SendAlert; Recv])))
    as H.
  specialize (H ltac:(by_compute)).
  destruct H as [(_ & H & _)|(_ & H & _)]; [exact H|].
  exfalso. revert H. by_compute.
Defined.

Lemma suppression_holds_until_resolved_witness :
  deb (after 60 10 (outage ++ [Recv; sec 30; Cycle down; SendAlert; Recv]))
  = Suppressing addr_status 0.
Proof.
  pose proof (suppression_holds_until_resolved false cmd_ok mail_ok (cfg 60 10)
                url tgt Recv
                (after 60 10 (outage ++ [Recv; sec 30; Cycle down; SendAlert]))
                (after 60 10 (outage ++ [Recv; sec 30; Cycle down; SendAlert; Recv]))
                addr_status 0%nat) as H.
  do 2 specialize (H ltac:(by_compute)).
  destruct H as [(H & _)|(_ & _ & [[_ H]|[H _]])]; [exact H| |].
  - exfalso. revert H. by_compute.
  - discriminate H.
Defined.

Lemma timer_dispatch_not_before_standoff_witness :
  now (after 60 10 outage) + 60 * Second
  <= now (after 60 10 (outage ++ [Recv; sec 30; sec 45; Expire 0%nat])).
Proof.
  pose proof (timer_dispatch_not_before_standoff false cmd_ok mail_ok (cfg 60 10)
                url tgt
                (after 60 10 outage)
                (after 60 10 (outage ++ [Recv]))
                (after 60 10 (outage ++ [Recv; sec 30; sec 45; Expire 0%nat]))
                (after 60 10 (outage ++ [Recv; sec 30; sec 45; Expire 0%nat; TimerC]))
                [sec 30; sec 45; Expire 0%nat]
                addr_status addr_status []) as H.
  assert (Hreach : reachable false cmd_ok mail_ok (cfg 60 10) url tgt
                     (after 60 10 outage))
    by (exists T0, outage; by_compute).
  specialize (H Hreach).
  do 7 specialize (H ltac:(by_compute)).
  specialize (H ltac:(unfold MaxSeconds; cbn; lia)).
  exact (proj1 H).
Defined.

Lemma timestamps_in_the_past_witness :
  TargetStatus.LastAlert
    (status (after 60 10 (outage ++ [Recv; sec 60; Expire 0%nat; TimerC; sec 5])))
  <= now (after 60 10 (outage ++ [Recv; sec 60; Expire 0%nat; TimerC; sec 5])).
Proof.
  pose proof (timestamps_in_the_past false cmd_ok mail_ok (cfg 60 10) url tgt T0
                (outage ++ [Recv; sec 60; Expire 0%nat; TimerC; sec 5])
                (after 60 10 (outage ++ [Recv; sec 60; Expire 0%nat; TimerC; sec 5])))
    as H.
  do 2 specialize (H ltac:(by_compute)).
  exact (proj2 (proj2 (proj2 H))).
Defined.

Lemma running_timer_is_the_newest_witness :
  length (timers (after 60 10
            (outage ++ [Recv; sec 30; Cycle up; SendAlert; SendRes; Recv;
                        sec 30; Cycle down; SendAlert; SendRes; Recv])))
  = 2%nat.
Proof.
  pose proof (running_timer_is_the_newest false cmd_ok mail_ok (cfg 60 10) url tgt
                (after 60 10
                   (outage ++ [Recv; sec 30; Cycle up; SendAlert; SendRes; Recv;
                               sec 30; Cycle down; SendAlert; SendRes; Recv]))
                addr_status 1%nat) as H.
  assert (Hreach : reachable false cmd_ok mail_ok (cfg 60 10) url tgt
            (after 60 10
               (outage ++ [Recv; sec 30; Cycle up; SendAlert; SendRes; Recv;
                           sec 30; Cycle down; SendAlert; SendRes; Recv]))).
  { exists T0, (outage ++ [Recv; sec 30; Cycle up; SendAlert; SendRes; Recv;
                           sec 30; Cycle down; SendAlert; SendRes; Recv]).
    by_compute. }
  specialize (H Hreach ltac:(by_compute)).
  symmetry. exact (proj1 H).
Defined.

Lemma still_down_requests_until_first_dispatch_witness :
  exists s',
    step_ 60 300 (Cycle down) (after 60 300 (outage ++ [Recv; sec 30])) = Some s'
    /\ mon s' = AtSendAlert.
Proof.
  pose proof (still_down_requests_until_first_dispatch false cmd_ok mail_ok
                (cfg 60 300) url tgt T0 (outage ++ [Recv; sec 30])
                (after 60 300 (outage ++ [Recv; sec 30])) down) as H.
  do 5 specialize (H ltac:(by_compute)).
  specialize (H ltac:(unfold MaxSeconds; cbn; lia)).
  specialize (H ltac:(by_compute)).
  exact (proj2 H).
Defined.
